(** * cian-agenda: a shallow embedding of [streamlit_app.py]

    The clinic agenda is a single Python module: a login gate, a
    persistence adapter (SQL engine or flat CSV files), two domain
    helpers ([generate_slots], [overlaps]) and five Streamlit pages.

    The embedding follows the module top to bottom.  Python values that
    the code converts with [str], [int], [float] or tests for truth are
    [cell]s; a pandas DataFrame is a list of column labels and a list of
    rows; the CSV directory is a finite map from table names to frames;
    exceptions are an explicit result type.  The branch of every
    persistence function that is modelled is the one taken when
    [get_engine()] returns [None] (the flat-file backend): the other
    branch hands an SQL statement to the database engine. *)

From Stdlib Require Import ZArith QArith Lia Bool List Ascii String.
From Stdlib Require Import DecimalString.
From stdpp Require Import base option list strings gmap fin_maps.

Open Scope string_scope.
Open Scope Z_scope.

(** ** Python primitives *)

Module Py.

(** Exceptions the modelled code can raise. *)
Inductive exn : Type :=
  | KeyError | IndexError | ValueError | TypeError
  | AttributeError | ZeroDivisionError | OverflowError.

(** A computation either returns or raises. *)
Inductive result (A : Type) : Type :=
  | Ok (a : A)
  | Raise (e : exn).
Arguments Ok {A} a.
Arguments Raise {A} e.

Definition bind {A B} (r : result A) (k : A -> result B) : result B :=
  match r with
  | Ok a => k a
  | Raise e => Raise e
  end.

Notation "'let*' x ':=' r 'in' k" := (bind r (fun x => k))
  (at level 10, x pattern, r at level 100, k at level 200).

(** [a <= b] and [a < b] on [str]: lexicographic on code points.  A
    string is held as its UTF-8 bytes, whose byte order is the code
    point order. *)
Definition str_le (a b : string) : bool := String.leb a b.
Definition str_lt (a b : string) : bool := String.ltb a b.

(** [str(n)] for an [int]. *)
Definition str_of_int (n : Z) : string :=
  NilZero.string_of_int (Z.to_int n).

(** ASCII white space, as [str.strip()] and [int()] skip it: tab, line
    feed, vertical tab, form feed, carriage return, the four separators
    0x1c-0x1f and the space.  The white space outside ASCII (U+0085,
    U+00A0, ...) is not recognised here. *)
Definition is_space (c : ascii) : bool :=
  let n := Z.of_N (N_of_ascii c) in
  ((9 <=? n) && (n <=? 13)) || ((28 <=? n) && (n <=? 32)).

Fixpoint lstrip (s : string) : string :=
  match s with
  | String c r => if is_space c then lstrip r else s
  | EmptyString => EmptyString
  end.

(** [rstrip] keeps a character when it is not a space or when something
    is kept after it. *)
Fixpoint rstrip (s : string) : string :=
  match s with
  | String c r =>
      match rstrip r with
      | EmptyString => if is_space c then EmptyString else String c EmptyString
      | r' => String c r'
      end
  | EmptyString => EmptyString
  end.

Definition strip (s : string) : string := rstrip (lstrip s).

(** [s.split(sep)] for a one-character separator. *)
Fixpoint split (sep : ascii) (s : string) : list string :=
  match s with
  | EmptyString => [EmptyString]
  | String c r =>
      if Ascii.eqb c sep then EmptyString :: split sep r
      else match split sep r with
           | h :: t => String c h :: t
           | [] => [String c EmptyString]
           end
  end.

Definition is_digit (c : ascii) : bool :=
  let n := Z.of_N (N_of_ascii c) in (48 <=? n) && (n <=? 57).

Definition digit_val (c : ascii) : Z := Z.of_N (N_of_ascii c) - 48.

(** The digits of an [int()] literal: decimal digits, a single
    underscore allowed between two digits. *)
Fixpoint digits_val (acc : Z) (after_digit : bool) (s : string) : option Z :=
  match s with
  | EmptyString => if after_digit then Some acc else None
  | String c r =>
      if is_digit c then digits_val (acc * 10 + digit_val c) true r
      else if Ascii.eqb c "_"%char then
        (if after_digit then digits_val acc false r else None)
      else None
  end.

(** [int(s)] for a [str]: surrounding white space, an optional sign,
    then the digits; anything else is a [ValueError].  Digits outside
    ASCII are not recognised here. *)
Definition int_of_str (s : string) : result Z :=
  let body (neg : bool) (r : string) :=
    match digits_val 0 false r with
    | Some n => Ok (if neg then - n else n)
    | None => Raise ValueError
    end in
  match strip s with
  | String "-"%char r => body true r
  | String "+"%char r => body false r
  | r => body false r
  end.

(** A number below 100 on two digits, as [%H], [%M], [%m], [%d] print. *)
Definition digit_char (d : Z) : ascii := ascii_of_N (Z.to_N (48 + d)).

Definition pad2 (n : Z) : string :=
  String (digit_char (n / 10)) (String (digit_char (n mod 10)) EmptyString).

(** A year on four digits, as [date.isoformat] prints. *)
Definition pad4 (n : Z) : string :=
  String (digit_char (n / 1000))
    (String (digit_char (n / 100 mod 10))
       (String (digit_char (n / 10 mod 10))
          (String (digit_char (n mod 10)) EmptyString))).

(** *** [datetime.date] *)

Record date : Type := mkdate { year : Z; month : Z; day : Z }.

Definition is_leap (y : Z) : bool :=
  ((y mod 4 =? 0) && negb (y mod 100 =? 0)) || (y mod 400 =? 0).

Definition days_in_month (y m : Z) : Z :=
  if m =? 2 then (if is_leap y then 29 else 28)
  else if (m =? 4) || (m =? 6) || (m =? 9) || (m =? 11) then 30
  else 31.

(** [MINYEAR = 1], [MAXYEAR = 9999]. *)
Definition valid_date (d : date) : bool :=
  (1 <=? year d) && (year d <=? 9999) &&
  (1 <=? month d) && (month d <=? 12) &&
  (1 <=? day d) && (day d <=? days_in_month (year d) (month d)).

Definition days_before_year (y : Z) : Z :=
  let p := y - 1 in p * 365 + p / 4 - p / 100 + p / 400.

Fixpoint days_before_month_aux (y : Z) (k : nat) : Z :=
  match k with
  | O => 0
  | S k' => days_before_month_aux y k' + days_in_month y (Z.of_nat k)
  end.

Definition days_before_month (y m : Z) : Z :=
  days_before_month_aux y (Z.to_nat (m - 1)).

(** [d.toordinal()]: 0001-01-01 is day 1. *)
Definition toordinal (d : date) : Z :=
  days_before_year (year d) + days_before_month (year d) (month d) + day d.

(** [str(d)], that is [d.isoformat()]: YYYY-MM-DD. *)
Definition isoformat (d : date) : string :=
  pad4 (year d) +:+ "-" +:+ pad2 (month d) +:+ "-" +:+ pad2 (day d).

(** *** [datetime.datetime] and [datetime.time]

    The code builds every datetime from a date and [dt.time(h, m)] and
    moves it by whole minutes, so seconds and microseconds stay zero: a
    datetime is the number of minutes since the midnight that opens
    ordinal day 0. *)
Definition datetime := Z.

Definition datetime_min : datetime := 1 * 1440.
Definition datetime_max : datetime := 3652059 * 1440 + 1439.

(** [dt.time(h, m)]: a [ValueError] outside 0..23 and 0..59; the value
    is the minute of the day. *)
Definition py_time (h m : Z) : result Z :=
  if (0 <=? h) && (h <=? 23) && (0 <=? m) && (m <=? 59)
  then Ok (h * 60 + m) else Raise ValueError.

(** [dt.datetime.combine(d, t)]. *)
Definition combine (d : date) (t : Z) : datetime := toordinal d * 1440 + t.

(** [cur + dt.timedelta(minutes=k)]: an [OverflowError] when the sum
    leaves year 1..9999.  ([timedelta] itself overflows only beyond
    999999999 days, which is outside that range already.) *)
Definition datetime_add (cur : datetime) (k : Z) : result datetime :=
  let r := cur + k in
  if (datetime_min <=? r) && (r <=? datetime_max) then Ok r
  else Raise OverflowError.

(** [cur.strftime("%H:%M")] and [cur.strftime("%H:%M:%S")]. *)
Definition strftime_HM (cur : datetime) : string :=
  let t := cur mod 1440 in pad2 (t / 60) +:+ ":" +:+ pad2 (t mod 60).

Definition strftime_HMS (cur : datetime) : string :=
  strftime_HM cur +:+ ":00".

(** [h, m = map(int, s.split(":"))]: every failure (a part that is not
    an integer, fewer or more than two parts) is a [ValueError]. *)
Definition parse_hm (s : string) : result (Z * Z) :=
  match split ":"%char s with
  | [a; b] =>
      let* h := int_of_str a in
      let* m := int_of_str b in
      Ok (h, m)
  | _ => Raise ValueError
  end.

End Py.

Import Py.

(** ** Values, frames and the CSV directory *)

(** The Python values that reach a DataFrame cell or a dict of column
    values.  Numbers are integers: the amounts the forms produce are
    whole ([float(price)] of an integer widget), ids read back from a
    CSV file are [int64]. *)
Inductive cell : Type :=
  | CStr (s : string)
  | CNum (n : Z)
  | CNone
  | CNaN.

#[global] Instance cell_eq_dec : EqDecision cell.
Proof. solve_decision. Defined.

(** [str(x)]; also what [Series.astype(str)] gives element by element. *)
Definition py_str (c : cell) : string :=
  match c with
  | CStr s => s
  | CNum n => str_of_int n
  | CNone => "None"
  | CNaN => "nan"
  end.

(** Truth value, as [not x] and [x and ...] test it: [None], [""] and
    [0] are false, NaN is a non-zero float. *)
Definition truthy (c : cell) : bool :=
  match c with
  | CStr s => negb (String.eqb s "")
  | CNum n => negb (n =? 0)
  | CNone => false
  | CNaN => true
  end.

(** [pd.isna(x)]. *)
Definition isna (c : cell) : bool :=
  match c with
  | CNone | CNaN => true
  | _ => false
  end.

(** One element of [series == s] for a [str] [s]. *)
Definition cell_eq_str (c : cell) (s : string) : bool :=
  match c with
  | CStr t => String.eqb t s
  | _ => false
  end.

(** One element of [series >= s] and [series <= s] for a [str] [s]: a
    null compares false, a number against a [str] is a [TypeError]. *)
Definition cell_ge_str (c : cell) (s : string) : result bool :=
  match c with
  | CStr t => Ok (str_le s t)
  | CNum _ => Raise TypeError
  | CNone | CNaN => Ok false
  end.

Definition cell_le_str (c : cell) (s : string) : result bool :=
  match c with
  | CStr t => Ok (str_le t s)
  | CNum _ => Raise TypeError
  | CNone | CNaN => Ok false
  end.

(** A DataFrame: its column labels and its rows in index order.  A row
    holds the cells that were given a value; a column of the frame that
    a row has no entry for reads as NaN there. *)
Record DataFrame : Type := mkDF {
  columns : list string;
  rows : list (gmap string cell)
}.

Definition has_column (df : DataFrame) (k : string) : bool :=
  bool_decide (k ∈ columns df).

(** The cell of row [r] under a column of the frame. *)
Definition cell_at (r : gmap string cell) (k : string) : cell :=
  default CNaN (r !! k).

(** [row.get(k, dflt)] for a row of [df.iterrows()]. *)
Definition row_get (df : DataFrame) (r : gmap string cell) (k : string)
    (dflt : cell) : cell :=
  if has_column df k then cell_at r k else dflt.

(** [df.empty]: no rows or no columns. *)
Definition df_empty (df : DataFrame) : bool :=
  match rows df, columns df with
  | [], _ | _, [] => true
  | _, _ => false
  end.

(** The keys of a dict of column values. *)
Definition keys (data : gmap string cell) : list string :=
  (map_to_list data).*1.

(** [pd.DataFrame([data])]. *)
Definition df_of_record (data : gmap string cell) : DataFrame :=
  mkDF (keys data) [data].

(** The labels of [ks] that [cols] lacks, appended to [cols]. *)
Definition add_columns (cols ks : list string) : list string :=
  cols ++ filter (fun k => k ∉ cols) ks.

(** [pd.concat([df, pd.DataFrame([data])], ignore_index=True)]. *)
Definition concat_record (df : DataFrame) (data : gmap string cell)
    : DataFrame :=
  mkDF (add_columns (columns df) (keys data)) (rows df ++ [data]).

(** [for k, v in data.items(): df.loc[mask, k] = v]: every row under
    the mask takes the values of [data]; a label that is new becomes a
    column. *)
Definition loc_assign (df : DataFrame) (mask : gmap string cell -> bool)
    (data : gmap string cell) : DataFrame :=
  mkDF (add_columns (columns df) (keys data))
       (map (fun r => if mask r then data ∪ r else r) (rows df)).

(** The directory [data/]: the frame each [<table>.csv] reads back as.
    The text round trip through the file is not modelled. *)
Definition default_columns (name : string) : list string :=
  if String.eqb name "patients" then
    ["id"; "full_name"; "rut"; "birth_date"; "phone"; "email"; "created_at"]
  else if String.eqb name "professionals" then
    ["id"; "full_name"; "specialty"; "created_at"]
  else if String.eqb name "services" then
    ["id"; "name"; "duration_minutes"; "price"; "created_at"]
  else if String.eqb name "appointments" then
    ["id"; "patient_id"; "professional_id"; "service_id"; "date";
     "start_time"; "end_time"; "status"; "notes"; "price"; "created_at"]
  else [].

(** [fetch_table(name)]: the file when it exists, else an empty frame
    with the default columns of the table. *)
Definition fetch_table (st : gmap string DataFrame) (name : string)
    : DataFrame :=
  match st !! name with
  | Some df => df
  | None => mkDF (default_columns name) []
  end.

(** [df.to_csv(csv_path(table), index=False)]. *)
Definition to_csv (st : gmap string DataFrame) (table : string)
    (df : DataFrame) : gmap string DataFrame :=
  <[table := df]> st.

(** [str(int(dt.datetime.now().timestamp()*1000))] for a clock that
    reads [now] milliseconds. *)
Definition fresh_key (now : Z) : cell := CStr (str_of_int now).

(** [insert_row(table, data)], flat-file branch. *)
Definition insert_row (st : gmap string DataFrame) (now : Z)
    (table : string) (data : gmap string cell) : gmap string DataFrame :=
  let df := fetch_table st table in
  let data :=
    match data !! "id" with
    | Some v => if truthy v then data else <["id" := fresh_key now]> data
    | None => <["id" := fresh_key now]> data
    end in
  to_csv st table (concat_record df data).

(** The test [pk not in data or not str(data.get(pk)).strip()]. *)
Definition key_blank (data : gmap string cell) (pk : string) : bool :=
  match data !! pk with
  | Some v => String.eqb (strip (py_str v)) ""
  | None => true
  end.

(** [upsert_row(table, data, pk)], flat-file branch.  [df[pk]] is a
    [KeyError] when a non-empty frame has no column [pk]. *)
Definition upsert_row (st : gmap string DataFrame) (now : Z)
    (table : string) (data : gmap string cell) (pk : string)
    : result (gmap string DataFrame) :=
  let df := fetch_table st table in
  let data := if key_blank data pk then <[pk := fresh_key now]> data
              else data in
  let* df :=
    if df_empty df then Ok (df_of_record data)
    else if has_column df pk then
      let key := py_str (cell_at data pk) in
      let mask r := String.eqb (py_str (cell_at r pk)) key in
      if existsb mask (rows df) then Ok (loc_assign df mask data)
      else Ok (concat_record df data)
    else Raise KeyError in
  Ok (to_csv st table df).

(** [delete_row(table, pk_value, pk)], flat-file branch. *)
Definition delete_row (st : gmap string DataFrame) (table : string)
    (pk_value : cell) (pk : string) : result (gmap string DataFrame) :=
  let df := fetch_table st table in
  if df_empty df then Ok st
  else if has_column df pk then
    Ok (to_csv st table
          (mkDF (columns df)
                (filter (fun r => py_str (cell_at r pk) <> py_str pk_value)
                        (rows df))))
  else Raise KeyError.

(** ** Domain helpers *)

(** [def overlaps(a_start, a_end, b_start, b_end)]:
    [return not (a_end <= b_start or b_end <= a_start)]. *)
Definition overlaps (a_start a_end b_start b_end : string) : bool :=
  negb (str_le a_end b_start || str_le b_end a_start).

(** The loop of [generate_slots]:
    [while cur <= end_dt: slots.append(cur.strftime("%H:%M")); cur += delta].
    [None] when [fuel] iterations were not enough. *)
Fixpoint slots_loop (fuel : nat) (block : Z) (cur end_dt : datetime)
    (slots : list string) : option (result (list string)) :=
  match fuel with
  | O => None
  | S fuel' =>
      if cur <=? end_dt then
        match datetime_add cur block with
        | Ok cur' =>
            slots_loop fuel' block cur' end_dt (slots ++ [strftime_HM cur])
        | Raise e => Some (Raise e)
        end
      else Some (Ok slots)
  end.

(** [generate_slots(block_minutes, start, end)] on a day [today]
    ([dt.date.today()], read once). *)
Definition generate_slots (fuel : nat) (today : date) (block_minutes : Z)
    (start end_ : string) : option (result (list string)) :=
  match parse_hm start with
  | Raise e => Some (Raise e)
  | Ok (s_h, s_m) =>
  match parse_hm end_ with
  | Raise e => Some (Raise e)
  | Ok (e_h, e_m) =>
  match py_time s_h s_m with
  | Raise e => Some (Raise e)
  | Ok s =>
  match py_time e_h e_m with
  | Raise e => Some (Raise e)
  | Ok e =>
      slots_loop fuel block_minutes (combine today s) (combine today e) []
  end end end end.

(** ** Login gate *)

(** [st.session_state]: the two keys the module uses; [None] is a key
    that was never set. *)
Record session_state : Type := mkSession {
  authed : option bool;
  user_email : option string
}.

(** How [require_auth] leaves the script run. *)
Inductive auth_outcome : Type :=
  | Proceed                    (* falls through to the pages *)
  | Stopped (err : option string)  (* login form shown, [st.stop()] *)
  | Rerun (msg : string).      (* [st.rerun()] after a success *)

(** [require_auth()], with the settings source [secrets], the two text
    inputs and whether the button was pressed in this run. *)
Definition require_auth (secrets : gmap string cell) (ss : session_state)
    (email pwd : string) (clicked : bool) : session_state * auth_outcome :=
  let ss := match authed ss with
            | None => mkSession (Some false) (user_email ss)
            | Some _ => ss
            end in
  if negb (default false (authed ss)) then
    if clicked then
      let expected := default CNone (secrets !! "app_password") in
      if truthy expected && bool_decide (CStr pwd = expected) then
        (mkSession (Some true) (Some email), Rerun "Acceso concedido")
      else
        (ss, Stopped (Some "Clave incorrecta o no configurada."))
    else (ss, Stopped None)
  else (ss, Proceed).

(** A session: [require_auth] run once per interaction; the state of
    the session is carried from one run to the next. *)
Fixpoint auth_session (secrets : gmap string cell) (ss : session_state)
    (inputs : list (string * string * bool)) : session_state :=
  match inputs with
  | [] => ss
  | (email, pwd, clicked) :: rest =>
      auth_session secrets (require_auth secrets ss email pwd clicked).1 rest
  end.

(** ** Pages *)

(** What a button handler shows. *)
Inductive ui : Type :=
  | UiError (msg : string)
  | UiSuccess (msg : string)
  | UiInfo (msg : string)
  | UiWarning (msg : string).

(** [df[df[col] == s]]: [df[col]] is a [KeyError] without the column. *)
Definition select_eq (df : DataFrame) (col s : string)
    : result (list (gmap string cell)) :=
  if has_column df col
  then Ok (filter (fun r => Is_true (cell_eq_str (cell_at r col) s)) (rows df))
  else Raise KeyError.

(** [df[df[col] == s]["id"].iloc[0]]. *)
Definition first_id (df : DataFrame) (col s : string) : result cell :=
  let* sel := select_eq df col s in
  if has_column df "id" then
    match sel with
    | r :: _ => Ok (cell_at r "id")
    | [] => Raise IndexError
    end
  else Raise KeyError.

(** [df[df[col] == s].iloc[0]]. *)
Definition first_row (df : DataFrame) (col s : string)
    : result (gmap string cell) :=
  let* sel := select_eq df col s in
  match sel with
  | r :: _ => Ok r
  | [] => Raise IndexError
  end.

(** [float(x)].  A [str] holding a literal that is not an integer is
    outside the model (it raises here). *)
Definition py_float (c : cell) : result cell :=
  match c with
  | CNum n => Ok (CNum n)
  | CNaN => Ok CNaN
  | CNone => Raise TypeError
  | CStr s => let* n := int_of_str s in Ok (CNum n)
  end.

(** [int(x)]. *)
Definition py_int (c : cell) : result Z :=
  match c with
  | CNum n => Ok n
  | CNaN => Raise ValueError
  | CNone => Raise TypeError
  | CStr s => int_of_str s
  end.

(** The form of "Agendar nueva cita". *)
Record booking : Type := mkBooking {
  psel : string;
  prosel : string;
  ssel : string;
  slot : string;
  dur : Z;
  notes : string;
  bday : date
}.

(** The placeholder of the three select boxes (U+2014). *)
Definition placeholder : string := "—".

(** The rows of [apps] for one professional and one day:
    [apps[(apps.get("professional_id","").astype(str)==str(prid))
          & (apps.get("date","")==str(day))]].
    Without the first column [.astype] is looked up on a [str]; without
    the second the comparison of two [str] is [False] for every row. *)
Definition same_day_rows (apps : DataFrame) (prid : cell) (day : date)
    : result (list (gmap string cell)) :=
  if has_column apps "professional_id" then
    Ok (filter (fun r =>
          Is_true (String.eqb (py_str (cell_at r "professional_id"))
                              (py_str prid)
                   && has_column apps "date"
                   && cell_eq_str (cell_at r "date") (isoformat day)))
          (rows apps))
  else Raise AttributeError.

(** The scan for a conflict:
    [for _, row in same_day.iterrows(): ... if not s2 or not e2: continue;
     if overlaps(start_t, end_t, s2, e2): conflict = True; break]. *)
Fixpoint conflict_scan (apps : DataFrame) (start_t end_t : string)
    (same_day : list (gmap string cell)) : bool :=
  match same_day with
  | [] => false
  | row :: rest =>
      let s2 := py_str (row_get apps row "start_time" (CStr "")) in
      let e2 := py_str (row_get apps row "end_time" (CStr "")) in
      if String.eqb s2 "" || String.eqb e2 "" then
        conflict_scan apps start_t end_t rest
      else if overlaps start_t end_t s2 e2 then true
      else conflict_scan apps start_t end_t rest
  end.

Definition conflict_msg : string :=
  "Conflicto de horario con otra cita del mismo profesional.".

(** [page_agenda()], the run in which "Crear cita" is pressed: the
    directory it leaves and the message it shows.  [f] holds the inputs
    of the form, [now] is the clock in milliseconds, [created_at] is
    [dt.datetime.utcnow().isoformat()]. *)
Definition page_agenda (st : gmap string DataFrame) (now : Z)
    (created_at : string) (f : booking)
    : result (gmap string DataFrame * ui) :=
  let pros := fetch_table st "professionals" in
  let pats := fetch_table st "patients" in
  let srvs := fetch_table st "services" in
  let apps := fetch_table st "appointments" in
  if String.eqb placeholder (psel f) || String.eqb placeholder (prosel f)
     || String.eqb placeholder (ssel f) then
    Ok (st, UiError "Completa paciente, profesional y servicio.")
  else
    let* pid := first_id pats "full_name" (psel f) in
    let* prid := first_id pros "full_name" (prosel f) in
    let* sr := first_row srvs "name" (ssel f) in
    let* price := py_float (row_get srvs sr "price" (CNum 0)) in
    let start_t := slot f +:+ ":00" in
    let* hm := parse_hm (slot f) in
    let* t := py_time hm.1 hm.2 in
    let* end_dt := datetime_add (combine (bday f) t) (dur f) in
    let end_t := strftime_HMS end_dt in
    let* same_day := same_day_rows apps prid (bday f) in
    if conflict_scan apps start_t end_t same_day then
      Ok (st, UiError conflict_msg)
    else if has_column srvs "id" then
      let data : gmap string cell :=
        <["patient_id" := pid]> (
        <["professional_id" := prid]> (
        <["service_id" := cell_at sr "id"]> (
        <["date" := CStr (isoformat (bday f))]> (
        <["start_time" := CStr start_t]> (
        <["end_time" := CStr end_t]> (
        <["status" := CStr "programada"]> (
        <["notes" := if String.eqb (notes f) "" then CNone
                     else CStr (notes f)]> (
        <["price" := price]> (
        <["created_at" := CStr created_at]> ∅))))))))) in
      Ok (insert_row st now "appointments" data, UiSuccess "Cita creada.")
    else Raise KeyError.

(** [page_citas()], the run in which "Actualizar estado" is pressed:
    the page returns before the form when the table is empty; [cid] is
    the id picked in the select box, [new_status] the state picked.
    The listing above the form (date and status filters, joins) only
    decides which ids the select box offers. *)
Definition page_citas (st : gmap string DataFrame) (now : Z)
    (cid new_status : string) : result (gmap string DataFrame * ui) :=
  let df := fetch_table st "appointments" in
  if df_empty df then Ok (st, UiInfo "No hay citas registradas.")
  else
    let* st' := upsert_row st now "appointments"
                  (<["id" := CStr cid]> (<["status" := CStr new_status]> ∅))
                  "id" in
    Ok (st', UiSuccess "Estado actualizado.").

(** [s.strip() or None]. *)
Definition strip_or_none (s : string) : cell :=
  if String.eqb (strip s) "" then CNone else CStr (strip s).

(** [page_pacientes()], the run in which "Guardar" is pressed; [bdate]
    is the date input, which may be left unset. *)
Definition page_pacientes (st : gmap string DataFrame) (now : Z)
    (created_at : string) (name rut : string) (bdate : option date)
    (phone email : string) : result (gmap string DataFrame * ui) :=
  if String.eqb (strip name) "" then
    Ok (st, UiError "El nombre es obligatorio.")
  else
    let data : gmap string cell :=
      <["full_name" := CStr (strip name)]> (
      <["rut" := strip_or_none rut]> (
      <["birth_date" := match bdate with
                        | Some d => CStr (isoformat d)
                        | None => CNone
                        end]> (
      <["phone" := strip_or_none phone]> (
      <["email" := strip_or_none email]> (
      <["created_at" := CStr created_at]> ∅))))) in
    let* st' := upsert_row st now "patients" data "id" in
    Ok (st', UiSuccess "Paciente guardado.").

(** [page_config()], the run in which "Guardar profesional" is
    pressed. *)
Definition page_config_professional (st : gmap string DataFrame) (now : Z)
    (created_at : string) (pname spec : string)
    : result (gmap string DataFrame * ui) :=
  if negb (String.eqb (strip pname) "") then
    let data : gmap string cell :=
      <["full_name" := CStr (strip pname)]> (
      <["specialty" := strip_or_none spec]> (
      <["created_at" := CStr created_at]> ∅)) in
    let* st' := upsert_row st now "professionals" data "id" in
    Ok (st', UiSuccess "Profesional guardado.")
  else Ok (st, UiError "El nombre es obligatorio.").

(** [page_config()], the run in which "Guardar servicio" is pressed;
    the two number inputs are integer widgets. *)
Definition page_config_service (st : gmap string DataFrame) (now : Z)
    (created_at : string) (sname : string) (duration price : Z)
    : result (gmap string DataFrame * ui) :=
  if negb (String.eqb (strip sname) "") then
    let data : gmap string cell :=
      <["name" := CStr (strip sname)]> (
      <["duration_minutes" := CNum duration]> (
      <["price" := CNum price]> (
      <["created_at" := CStr created_at]> ∅))) in
    let* st' := upsert_row st now "services" data "id" in
    Ok (st', UiSuccess "Servicio guardado.")
  else Ok (st, UiError "El nombre del servicio es obligatorio.").

(** The buttons of the pages that write, each with the inputs and the
    clock readings of its run. *)
Inductive action : Type :=
  | SavePatient (now : Z) (created_at name rut : string)
      (bdate : option date) (phone email : string)
  | SaveProfessional (now : Z) (created_at pname spec : string)
  | SaveService (now : Z) (created_at sname : string) (duration price : Z)
  | CreateAppointment (now : Z) (created_at : string) (f : booking)
  | UpdateStatus (now : Z) (cid new_status : string).

Definition handle (st : gmap string DataFrame) (a : action)
    : result (gmap string DataFrame * ui) :=
  match a with
  | SavePatient now c name rut bdate phone email =>
      page_pacientes st now c name rut bdate phone email
  | SaveProfessional now c pname spec =>
      page_config_professional st now c pname spec
  | SaveService now c sname duration price =>
      page_config_service st now c sname duration price
  | CreateAppointment now c f => page_agenda st now c f
  | UpdateStatus now cid new_status => page_citas st now cid new_status
  end.

(** The directory after a run: every handler writes last, so a run that
    raises leaves the files as they were. *)
Definition run_action (st : gmap string DataFrame) (a : action)
    : gmap string DataFrame :=
  match handle st a with
  | Ok (st', _) => st'
  | Raise _ => st
  end.

Definition run_actions (st : gmap string DataFrame) (acts : list action)
    : gmap string DataFrame :=
  fold_left run_action acts st.

(** ** Reports *)

(** [series.fillna(0)] and [series.sum()].  The sum of a column of
    numbers is their sum; [+] on two [str] is concatenation and on a
    [str] and a number a [TypeError]. *)
Definition fillna0 (c : cell) : cell := if isna c then CNum 0 else c.

Definition cell_add (a b : cell) : result cell :=
  match a, b with
  | CNum x, CNum y => Ok (CNum (x + y))
  | CStr x, CStr y => Ok (CStr (x +:+ y))
  | _, _ => Raise TypeError
  end.

Definition series_sum (cs : list cell) : result cell :=
  match cs with
  | [] => Ok (CNum 0)
  | c :: rest =>
      fold_left (fun acc x => let* a := acc in cell_add a x) rest (Ok c)
  end.

(** [series.nunique()]: the distinct values that are not null. *)
Definition nunique (cs : list cell) : Z :=
  Z.of_nat (length (remove_dups (filter (fun c => isna c = false) cs))).

(** [(series == s).sum()]. *)
Definition count_eq (cs : list cell) (s : string) : Z :=
  Z.of_nat (length (filter (fun c => Is_true (cell_eq_str c s)) cs)).

(** The column [k] of a list of rows. *)
Definition column (rs : list (gmap string cell)) (k : string) : list cell :=
  map (fun r => cell_at r k) rs.

(** [df[(df["date"] >= s1) & (df["date"] <= s2)]], row by row. *)
Fixpoint date_range (rs : list (gmap string cell)) (s1 s2 : string)
    : result (list (gmap string cell)) :=
  match rs with
  | [] => Ok []
  | r :: rest =>
      let* ge := cell_ge_str (cell_at r "date") s1 in
      let* le := cell_le_str (cell_at r "date") s2 in
      let* tl := date_range rest s1 s2 in
      Ok (if ge && le then r :: tl else tl)
  end.

(** Two join keys match when they are equal or both null. *)
Definition key_match (a b : cell) : bool :=
  (isna a && isna b) || bool_decide (a = b).

(** [scope.merge(pros, on="professional_id", how="left")] where [pros]
    is [professionals[["id","full_name"]]] renamed to
    [professional_id], [Profesional]: one output row per matching
    professional, the appointment alone when none matches. *)
Definition merge_professional (scope pros : list (gmap string cell))
    : list (gmap string cell) :=
  flat_map (fun r =>
    match filter (fun p => Is_true (key_match (cell_at r "professional_id")
                                               (cell_at p "id"))) pros with
    | [] => [r]
    | ms => map (fun p => <["Profesional" := cell_at p "full_name"]> r) ms
    end) scope.

Record kpis : Type := mkKpis {
  total_citas : Z;
  atendidas : Z;
  canceladas : Z;
  ausentes : Z;
  ingresos : Z
}.

Record occupancy : Type := mkOccupancy {
  slots_por_dia : Z;
  pros_in_scope : Z;
  dias_distintos : Z;
  total_slots_disp : Z;
  ocup : Q
}.

(** What [page_reportes] shows: a notice, or the KPI cards followed by
    the occupancy line (an exception raised while computing the
    occupancy leaves the cards on the page). *)
Inductive report : Type :=
  | Notice (w : ui)
  | Cards (k : kpis) (occ : result occupancy).

Section Reports.

(** [re.search(pattern, text, re.IGNORECASE)], as
    [Series.str.contains(pattern, case=False)] applies it. *)
Variable regex_search : string -> string -> bool.

(** One element of [series.str.contains(pat, case=False, na=False)]. *)
Definition cell_contains (pat : string) (c : cell) : bool :=
  match c with
  | CStr s => regex_search pat s
  | _ => false
  end.

(** The scope of the report: the appointments of the date range and,
    when the professional filter is not blank, of the professionals it
    matches.  The merged frame has the column [Profesional]. *)
Definition report_scope (df pros : DataFrame) (d1 d2 : date) (pro : string)
    : result DataFrame :=
  if has_column df "date" then
    let* in_range := date_range (rows df) (isoformat d1) (isoformat d2) in
    if negb (String.eqb (strip pro) "") then
      if has_column df "professional_id" then
        if has_column df "Profesional" then Raise KeyError
        else
          let merged := merge_professional in_range (rows pros) in
          Ok (mkDF (columns df ++ ["Profesional"])
                   (filter (fun r => Is_true
                              (cell_contains pro (cell_at r "Profesional")))
                           merged))
      else Raise KeyError
    else Ok (mkDF (columns df) in_range)
  else Raise KeyError.

(** The KPI cards: [len(scope)], the three status counts and
    [float(scope.get("price", 0).fillna(0).sum())]. *)
Definition report_kpis (scope : DataFrame) : result kpis :=
  if has_column scope "status" then
    let st := column (rows scope) "status" in
    if has_column scope "price" then
      let* total := series_sum (map fillna0 (column (rows scope) "price")) in
      let* total := py_float total in
      match total with
      | CNum n =>
          Ok (mkKpis (Z.of_nat (length (rows scope)))
                     (count_eq st "atendida") (count_eq st "cancelada")
                     (count_eq st "ausente") n)
      | _ => Raise ValueError
      end
    else Raise AttributeError
  else Raise KeyError.

(** A setting that must be a [str]: [.split] is looked up on it. *)
Definition setting_str (secrets : gmap string cell) (k dflt : string)
    : result string :=
  match default (CStr dflt) (secrets !! k) with
  | CStr s => Ok s
  | _ => Raise AttributeError
  end.

(** The occupancy line. *)
Definition report_occupancy (secrets : gmap string cell) (scope : DataFrame)
    : result occupancy :=
  let* block_minutes := py_int (default (CNum 30) (secrets !! "block_minutes")) in
  let* start_day := setting_str secrets "workday_start" "09:00" in
  let* s := parse_hm start_day in
  let* end_day := setting_str secrets "workday_end" "18:30" in
  let* e := parse_hm end_day in
  let jornada_min := (e.1 * 60 + e.2) - (s.1 * 60 + s.2) + block_minutes in
  if block_minutes =? 0 then Raise ZeroDivisionError
  else
    let slots := Z.max 1 (jornada_min / block_minutes) in
    if has_column scope "professional_id" then
      let p := nunique (column (rows scope) "professional_id") in
      if has_column scope "date" then
        let d := nunique (column (rows scope) "date") in
        let total := p * d * slots in
        let n := Z.of_nat (length (rows scope)) in
        Ok (mkOccupancy slots p d total
              (if total >? 0
               then (inject_Z n / inject_Z total * inject_Z 100)%Q
               else 0%Q))
      else Raise KeyError
    else Raise KeyError.

(** [page_reportes()], charts apart: the trend and top-professional
    charts only draw what is computed here. *)
Definition page_reportes (secrets : gmap string cell)
    (st : gmap string DataFrame) (d1 d2 : date) (pro : string)
    : result report :=
  let df := fetch_table st "appointments" in
  let pros := fetch_table st "professionals" in
  if has_column pros "id" && has_column pros "full_name" then
    if df_empty df then
      Ok (Notice (UiInfo "Aún no hay datos de citas para reportar."))
    else
      let* scope := report_scope df pros d1 d2 pro in
      if df_empty scope then
        Ok (Notice (UiWarning "Sin datos en el rango seleccionado."))
      else
        let* k := report_kpis scope in
        Ok (Cards k (report_occupancy secrets scope))
  else Raise KeyError.

End Reports.

(** A pattern without regular-expression operators matches where it
    occurs as a substring, letters compared without case. *)
Definition lower (c : ascii) : ascii :=
  let n := N_of_ascii c in
  if ((65 <=? n) && (n <=? 90))%N then ascii_of_N (n + 32) else c.

Fixpoint starts_with (pat s : string) : bool :=
  match pat, s with
  | EmptyString, _ => true
  | String _ _, EmptyString => false
  | String a p, String b r => Ascii.eqb (lower a) (lower b) && starts_with p r
  end.

Fixpoint literal_search (pat s : string) : bool :=
  starts_with pat s ||
  match s with
  | EmptyString => false
  | String _ r => literal_search pat r
  end.

(** ** Statements and sample data

    What the properties below are stated with. *)



(** The rows of a table after [upsert_row] found the key [key] in it. *)
Definition overwrite (data : gmap string cell) (pk key : string)
    (r : gmap string cell) : gmap string cell :=
  if String.eqb (py_str (cell_at r pk)) key then data ∪ r else r.


(** A patients file with one record, keyed by the millisecond 1000
    (ids read back from a file are numbers). *)
Definition stored_patient : gmap string cell :=
  <["id" := CNum 1000]> (<["full_name" := CStr "Ana"]> ∅).




(** A clinic with a patient, a professional, a service and one
    appointment (09:00 to 09:30 on 2024-05-06). *)
Definition first_appointment : gmap string cell :=
  <["id" := CNum 77]> (
  <["patient_id" := CNum 1000]> (
  <["professional_id" := CNum 5]> (
  <["service_id" := CNum 9]> (
  <["date" := CStr "2024-05-06"]> (
  <["start_time" := CStr "09:00:00"]> (
  <["end_time" := CStr "09:30:00"]> (
  <["status" := CStr "programada"]> (
  <["price" := CNum 30000]> ∅)))))))).

Definition clinic : gmap string DataFrame :=
  <["patients" := mkDF ["id"; "full_name"] [stored_patient]]> (
  <["professionals" :=
      mkDF ["id"; "full_name"]
           [<["id" := CNum 5]> (<["full_name" := CStr "Eva"]> ∅)]]> (
  <["services" :=
      mkDF ["id"; "name"; "duration_minutes"; "price"]
           [<["id" := CNum 9]> (<["name" := CStr "Terapia"]> (
            <["duration_minutes" := CNum 30]> (
            <["price" := CNum 30000]> ∅)))]]> (
  <["appointments" := mkDF (default_columns "appointments")
                           [first_appointment]]> ∅))).



(** The start and end of a stored appointment as the scan reads them. *)
Definition start_of (apps : DataFrame) (r : gmap string cell) : string :=
  py_str (row_get apps r "start_time" (CStr "")).

Definition end_of (apps : DataFrame) (r : gmap string cell) : string :=
  py_str (row_get apps r "end_time" (CStr "")).


(** The row that a booking writes, before [insert_row] keys it. *)
Definition appointment_record (pid prid service_id price : cell) (day : date)
    (start_t end_t notes created_at : string) : gmap string cell :=
  <["patient_id" := pid]> (
  <["professional_id" := prid]> (
  <["service_id" := service_id]> (
  <["date" := CStr (isoformat day)]> (
  <["start_time" := CStr start_t]> (
  <["end_time" := CStr end_t]> (
  <["status" := CStr "programada"]> (
  <["notes" := if String.eqb notes "" then CNone else CStr notes]> (
  <["price" := price]> (
  <["created_at" := CStr created_at]> ∅))))))))).

(** A booking at 09:15 for the professional of the sample clinic, who
    is taken from 09:00 to 09:30. *)
Definition quarter_past_nine : booking :=
  mkBooking "Ana" "Eva" "Terapia" "09:15" 30 "" (mkdate 2024 5 6).

(** The sample clinic with the end time of its appointment left blank
    in the file, and the clinic with no appointment at all. *)
Definition open_ended : gmap string cell := delete "end_time" first_appointment.

Definition clinic_open_ended : gmap string DataFrame :=
  <["appointments" := mkDF (default_columns "appointments") [open_ended]]>
    clinic.

Definition clinic_idle : gmap string DataFrame :=
  <["appointments" := mkDF (default_columns "appointments") []]> clinic.

(** A booking that starts when the stored appointment ends. *)
Definition half_past_nine : booking :=
  mkBooking "Ana" "Eva" "Terapia" "09:30" 30 "" (mkdate 2024 5 6).





Definition total (l : list Z) : Z := foldr Z.add 0 l.

(** The KPI cards of a page, when it shows them. *)
Definition cards_of (p : result report) : option kpis :=
  match p with
  | Ok (Cards k _) => Some k
  | _ => None
  end.






(** The sample clinic with a second professional and an appointment of
    his on the next day. *)
Definition second_appointment : gmap string cell :=
  <["id" := CNum 78]> (
  <["patient_id" := CNum 1000]> (
  <["professional_id" := CNum 6]> (
  <["service_id" := CNum 9]> (
  <["date" := CStr "2024-05-07"]> (
  <["start_time" := CStr "11:00:00"]> (
  <["end_time" := CStr "11:30:00"]> (
  <["status" := CStr "atendida"]> (
  <["price" := CNum 25000]> ∅)))))))).

Definition clinic_two : gmap string DataFrame :=
  <["professionals" :=
      mkDF ["id"; "full_name"]
           [<["id" := CNum 5]> (<["full_name" := CStr "Eva"]> ∅);
            <["id" := CNum 6]> (<["full_name" := CStr "Leo"]> ∅)]]> (
  <["appointments" := mkDF (default_columns "appointments")
                           [first_appointment; second_appointment]]> clinic).

Definition may_first : date := mkdate 2024 5 1.
Definition may_last : date := mkdate 2024 5 31.

(** The divisor of the occupancy is positive on every scope with rows. *)
Definition occupancy_divisor_positive : Prop :=
  forall (secrets : gmap string cell) (scope : DataFrame) (occ : occupancy),
    rows scope <> [] ->
    report_occupancy secrets scope = Ok occ ->
    0 < total_slots_disp occ.

(** The sample clinic with the professional of its appointment left
    blank in the file. *)
Definition unassigned : gmap string cell :=
  delete "professional_id" first_appointment.

Definition clinic_unassigned : gmap string DataFrame :=
  <["appointments" := mkDF (default_columns "appointments") [unassigned]]>
    clinic.

(** ** The script

    [main()]: the gate, then the page picked in the sidebar.  A run of
    the script handles one interaction: [act] is the button pressed on
    the page in this run, if any; the Reportes page and a run without a
    button write nothing.  A run that the gate leaves through
    [st.stop()] or [st.rerun()] does not reach the pages. *)
Definition main (secrets : gmap string cell) (ss : session_state)
    (st : gmap string DataFrame) (email pwd : string) (clicked : bool)
    (act : option action) : session_state * gmap string DataFrame :=
  match require_auth secrets ss email pwd clicked with
  | (ss', Proceed) =>
      (ss', match act with
            | Some a => run_action st a
            | None => st
            end)
  | (ss', _) => (ss', st)
  end.

(** A session of runs, each with what the user typed and pressed. *)
Fixpoint main_session (secrets : gmap string cell) (ss : session_state)
    (st : gmap string DataFrame)
    (runs : list (string * string * bool * option action))
    : session_state * gmap string DataFrame :=
  match runs with
  | [] => (ss, st)
  | (email, pwd, clicked, act) :: rest =>
      let r := main secrets ss st email pwd clicked act in
      main_session secrets r.1 r.2 rest
  end.

(** The minute of the day that a text H:M denotes, read as
    [generate_slots] and [page_agenda] read it: [map(int, s.split(":"))]
    then [dt.time(h, m)]. *)
Definition time_of_day (s : string) : result Z :=
  let* hm := parse_hm s in
  py_time hm.1 hm.2.


(** The appointments table has the four columns the booking check
    reads. *)
Definition agenda_columns (apps : DataFrame) : Prop :=
  has_column apps "professional_id" = true
  /\ has_column apps "date" = true
  /\ has_column apps "start_time" = true
  /\ has_column apps "end_time" = true.


(** The table a button writes. *)
Definition table_of (a : action) : string :=
  match a with
  | SavePatient _ _ _ _ _ _ _ => "patients"
  | SaveProfessional _ _ _ _ => "professionals"
  | SaveService _ _ _ _ _ => "services"
  | CreateAppointment _ _ _ | UpdateStatus _ _ _ => "appointments"
  end.

(** Every table that has rows has columns, as a frame read from a file
    has. *)
Definition has_header (st : gmap string DataFrame) : Prop :=
  forall t, rows (fetch_table st t) <> [] -> columns (fetch_table st t) <> [].



(** No two professionals share an id; two null ids count as shared, as
    in a join. *)
Definition unique_professionals (pros : DataFrame) : Prop :=
  forall i j p q, i <> j ->
    rows pros !! i = Some p -> rows pros !! j = Some q ->
    key_match (cell_at p "id") (cell_at q "id") = false.

(** A late booking: 23:30 for an hour. *)
Definition late_evening : booking :=
  mkBooking "Ana" "Eva" "Terapia" "23:30" 60 "" (mkdate 2024 5 6).

(** * Properties *)

(** Closes [a = b] when both sides evaluate to the same value. *)
Ltac vm_refl :=
  match goal with
  | |- @eq ?T ?a ?b => vm_cast_no_check (@eq_refl T b)
  end.

(** ** Facts about the string order *)

Lemma str_le_lt_negb (a b : string) : str_le a b = negb (str_lt b a).
Proof.
  unfold str_le, str_lt, String.leb, String.ltb.
  rewrite (String.compare_antisym b a).
  destruct (String.compare a b); reflexivity.
Qed.

Lemma str_le_refl (a : string) : str_le a a = true.
Proof.
  destruct (String.leb_total a a) as [H | H]; exact H.
Qed.

(** ** The overlap predicate *)

(** C1: [overlaps a1 a2 b1 b2] is true exactly when [a1 < b2] and
    [b1 < a2] in the string order, for all four strings; two intervals
    that touch ([a2 = b1]) do not overlap. *)
Theorem overlaps_iff_strict (a1 a2 b1 b2 : string) :
  (overlaps a1 a2 b1 b2 = true <-> str_lt a1 b2 = true /\ str_lt b1 a2 = true)
  /\ overlaps a1 b1 b1 b2 = false.
Proof.
  split.
  - unfold overlaps. rewrite !str_le_lt_negb.
    destruct (str_lt b1 a2), (str_lt a1 b2); simpl; intuition congruence.
  - unfold overlaps. rewrite str_le_refl. reflexivity.
Qed.

(** ** Dates as text *)

Lemma digit_char_compare (a b : Z) :
  0 <= a <= 9 -> 0 <= b <= 9 ->
  Ascii.compare (digit_char a) (digit_char b) = (a ?= b).
Proof.
  intros Ha Hb.
  assert (Ea : a = 0 \/ a = 1 \/ a = 2 \/ a = 3 \/ a = 4 \/ a = 5 \/ a = 6
               \/ a = 7 \/ a = 8 \/ a = 9) by lia.
  assert (Eb : b = 0 \/ b = 1 \/ b = 2 \/ b = 3 \/ b = 4 \/ b = 5 \/ b = 6
               \/ b = 7 \/ b = 8 \/ b = 9) by lia.
  destruct Ea as [-> | [-> | [-> | [-> | [-> | [-> | [-> | [-> | [-> | ->]]]]]]]]];
    destruct Eb as [-> | [-> | [-> | [-> | [-> | [-> | [-> | [-> | [-> | ->]]]]]]]]];
    reflexivity.
Qed.

Lemma append_cons (c : ascii) (s x : string) :
  String c s +:+ x = String c (s +:+ x).
Proof. reflexivity. Qed.

Lemma append_nil (x : string) : "" +:+ x = x.
Proof. reflexivity. Qed.

Lemma compare_cons (c1 c2 : ascii) (s1 s2 : string) :
  String.compare (String c1 s1) (String c2 s2)
  = match Ascii.compare c1 c2 with
    | Eq => String.compare s1 s2
    | ne => ne
    end.
Proof. reflexivity. Qed.

(** Two numbers printed on two digits compare as the numbers do. *)
Lemma pad2_compare (a b : Z) (x y : string) :
  0 <= a < 100 -> 0 <= b < 100 ->
  String.compare (pad2 a +:+ x) (pad2 b +:+ y)
  = match a ?= b with
    | Eq => String.compare x y
    | c => c
    end.
Proof.
  intros Ha Hb. unfold pad2. rewrite ?append_cons, ?append_nil.
  rewrite !compare_cons.
  rewrite !digit_char_compare
    by (Z.to_euclidean_division_equations; lia).
  destruct (Z.compare_spec (a / 10) (b / 10)) as [H1 | H1 | H1];
    destruct (Z.compare_spec (a mod 10) (b mod 10)) as [H0 | H0 | H0];
    destruct (Z.compare_spec a b) as [H | H | H];
    try reflexivity; exfalso;
    Z.to_euclidean_division_equations; lia.
Qed.





(** ** The slot generator *)




(** With [block <= 0] the loop never leaves through its test: it runs
    out of any fuel or stops on an [OverflowError]. *)
Lemma slots_loop_nonpositive_block (fuel : nat) :
  forall block cur end_dt acc l,
    block <= 0 -> cur <= end_dt ->
    slots_loop fuel block cur end_dt acc <> Some (Ok l).
Proof.
  induction fuel as [|fuel IH]; intros block cur end_dt acc l Hb Hc; simpl.
  - discriminate.
  - destruct (Z.leb_spec cur end_dt); [|lia].
    unfold datetime_add.
    destruct ((datetime_min <=? cur + block) && (cur + block <=? datetime_max));
      [|discriminate].
    apply IH; lia.
Qed.

(** Ordinals of valid dates. *)
Lemma days_before_year_succ (y : Z) :
  days_before_year (y + 1)
  = days_before_year y + (if is_leap y then 366 else 365).
Proof.
  unfold days_before_year, is_leap. cbv zeta.
  replace (y + 1 - 1) with y by lia.
  destruct (Z.eqb_spec (y mod 4) 0), (Z.eqb_spec (y mod 100) 0),
    (Z.eqb_spec (y mod 400) 0); simpl;
    Z.to_euclidean_division_equations; lia.
Qed.

Lemma days_before_year_mono (a b : Z) :
  a <= b -> days_before_year a <= days_before_year b.
Proof.
  intros H. unfold days_before_year. cbv zeta.
  Z.to_euclidean_division_equations. lia.
Qed.

Lemma toordinal_range (d : date) :
  valid_date d = true -> 1 <= toordinal d <= 3652059.
Proof.
  unfold valid_date. rewrite !andb_true_iff, !Z.leb_le.
  intros [[[[[Hy1 Hy2] Hm1] Hm2] Hd1] Hd2].
  assert (Hin : days_before_month (year d) (month d) + day d
                <= (if is_leap (year d) then 366 else 365)
                /\ 0 <= days_before_month (year d) (month d)).
  { unfold days_before_month.
    assert (Hm : month d = 1 \/ month d = 2 \/ month d = 3 \/ month d = 4 \/
                 month d = 5 \/ month d = 6 \/ month d = 7 \/ month d = 8 \/
                 month d = 9 \/ month d = 10 \/ month d = 11 \/ month d = 12)
      by lia.
    revert Hd2.
    destruct Hm as [-> | [-> | [-> | [-> | [-> | [-> | [-> | [-> | [-> |
                   [-> | [-> | ->]]]]]]]]]]];
      repeat match goal with
             | |- context [Z.to_nat ?e] =>
                 let v := eval vm_compute in (Z.to_nat e) in
                 change (Z.to_nat e) with v
             end;
      cbn [days_before_month_aux]; unfold days_in_month;
      repeat match goal with
             | |- context [Z.of_nat ?e] =>
                 let v := eval vm_compute in (Z.of_nat e) in
                 change (Z.of_nat e) with v
             end;
      cbn -[is_leap]; destruct (is_leap (year d)); lia. }
  unfold toordinal.
  pose proof (days_before_year_succ (year d)) as Hs.
  pose proof (days_before_year_mono (year d + 1) 10000 ltac:(lia)) as Hmono.
  pose proof (days_before_year_mono 1 (year d) ltac:(lia)) as Hlow.
  change (days_before_year 10000) with 3652059 in Hmono.
  change (days_before_year 1) with 0 in Hlow.
  destruct (is_leap (year d)); lia.
Qed.




Lemma py_time_ok (h m : Z) :
  0 <= h <= 23 -> 0 <= m <= 59 -> py_time h m = Ok (h * 60 + m).
Proof.
  intros Hh Hm. unfold py_time.
  destruct (Z.leb_spec 0 h), (Z.leb_spec h 23), (Z.leb_spec 0 m),
    (Z.leb_spec m 59); simpl; try lia; reflexivity.
Qed.



(** A time of day printed as HH:MM reads back through
    [map(int, s.split(":"))] and [dt.time]: every slot that the
    generator offers is one the booking form can parse. *)
Lemma parse_strftime_HM (t : Z) :
  0 <= t < 1440 ->
  parse_hm (strftime_HM t) = Ok (t / 60, t mod 60)
  /\ py_time (t / 60) (t mod 60) = Ok t.
Proof.
  intros Ht.
  assert (Hall : forallb (fun n =>
            match parse_hm (strftime_HM (Z.of_nat n)) with
            | Ok (h, m) => (h =? Z.of_nat n / 60) && (m =? Z.of_nat n mod 60)
            | Raise _ => false
            end) (seq 0 1440) = true) by vm_refl.
  rewrite forallb_forall in Hall.
  specialize (Hall (Z.to_nat t)).
  rewrite Z2Nat.id in Hall by lia. split.
  - destruct (parse_hm (strftime_HM t)) as [[h m]|e].
    + assert (Hhm : (h =? t / 60) && (m =? t mod 60) = true)
        by (apply Hall, in_seq; lia).
      apply andb_true_iff in Hhm as [H1 H2].
      apply Z.eqb_eq in H1, H2. now subst.
    + assert (false = true) by (apply Hall, in_seq; lia). discriminate.
  - rewrite py_time_ok by (Z.to_euclidean_division_equations; lia).
    f_equal. Z.to_euclidean_division_equations; lia.
Qed.







(** ** The login gate *)

Section NoPassphrase.

Variable secrets : gmap string cell.
Hypothesis not_configured : secrets !! "app_password" = None.

(** One run of the gate on a session that is not authenticated. *)
Lemma require_auth_step (ss : session_state) (email pwd : string)
    (clicked : bool) :
  authed ss <> Some true ->
  authed (require_auth secrets ss email pwd clicked).1 = Some false
  /\ (require_auth secrets ss email pwd clicked).2
     = Stopped (if clicked then Some "Clave incorrecta o no configurada."
                else None).
Proof using not_configured.
  intros Hss. unfold require_auth. rewrite not_configured. simpl.
  destruct ss as [[[|]|] mail]; simpl in *; try congruence;
    destruct clicked; simpl; split; reflexivity.
Qed.

Lemma auth_session_never (inputs : list (string * string * bool)) :
  forall ss, authed ss <> Some true ->
    authed (auth_session secrets ss inputs) <> Some true.
Proof using not_configured.
  induction inputs as [|[[email pwd] clicked] rest IH]; intros ss Hss; simpl.
  - exact Hss.
  - apply IH.
    destruct (require_auth_step ss email pwd clicked Hss) as [Hf _].
    rewrite Hf. discriminate.
Qed.

End NoPassphrase.

(** C9: with no [app_password] in the settings, every submitted
    password is rejected: a run of the gate on a session that is not
    authenticated leaves [authed] false and stops on the login form
    (with the error message when the button was pressed), and no
    sequence of attempts from a new session ever sets [authed]. *)
Theorem login_rejected_without_passphrase (secrets : gmap string cell) :
  secrets !! "app_password" = None ->
  (forall (ss : session_state) (email pwd : string) (clicked : bool),
     authed ss <> Some true ->
     authed (require_auth secrets ss email pwd clicked).1 = Some false
     /\ (require_auth secrets ss email pwd clicked).2
        = Stopped (if clicked then Some "Clave incorrecta o no configurada."
                   else None))
  /\ (forall inputs : list (string * string * bool),
        authed (auth_session secrets (mkSession None None) inputs)
        <> Some true).
Proof.
  intros Hno. split.
  - intros ss email pwd clicked Hss. now apply require_auth_step.
  - intros inputs. apply auth_session_never; [exact Hno | discriminate].
Qed.

Lemma login_rejected_without_passphrase_witness :
  (forall (ss : session_state) (email pwd : string) (clicked : bool),
     authed ss <> Some true ->
     authed (require_auth (<["block_minutes" := CNum 30]> ∅) ss email pwd
               clicked).1 = Some false
     /\ (require_auth (<["block_minutes" := CNum 30]> ∅) ss email pwd
           clicked).2
        = Stopped (if clicked then Some "Clave incorrecta o no configurada."
                   else None))
  /\ (forall inputs : list (string * string * bool),
        authed (auth_session (<["block_minutes" := CNum 30]> ∅)
                  (mkSession None None) inputs)
        <> Some true).
Proof.
  apply (login_rejected_without_passphrase (<["block_minutes" := CNum 30]> ∅)).
  reflexivity.
Defined.

(** With a passphrase configured the same gate lets the right password
    in: the rejection above comes from the missing setting. *)
Example login_accepts_configured :
  require_auth (<["app_password" := CStr "cian"]> ∅) (mkSession None None)
    "a@b.cl" "cian" true
  = (mkSession (Some true) (Some "a@b.cl"), Rerun "Acceso concedido").
Proof. reflexivity. Qed.

(** ** The persistence adapter *)

Lemma fetch_to_csv_eq (st : gmap string DataFrame) (t : string)
    (df : DataFrame) :
  fetch_table (to_csv st t df) t = df.
Proof. unfold fetch_table, to_csv. now rewrite lookup_insert_eq. Qed.

Lemma fetch_to_csv_ne (st : gmap string DataFrame) (t t' : string)
    (df : DataFrame) :
  t <> t' -> fetch_table (to_csv st t df) t' = fetch_table st t'.
Proof.
  intros Hne. unfold fetch_table, to_csv. now rewrite lookup_insert_ne.
Qed.


Lemma existsb_false_iff {A} (f : A -> bool) (l : list A) :
  existsb f l = false <-> (forall x, x ∈ l -> f x = false).
Proof.
  induction l as [|a l IH]; simpl.
  - split; [intros _ x Hx; inversion Hx | reflexivity].
  - rewrite orb_false_iff, IH. split.
    + intros [Ha Hl] x Hx. apply elem_of_cons in Hx as [-> | Hx]; auto.
    + intros H. split; [apply H; left | intros x Hx; apply H; now right].
Qed.

Lemma existsb_true_iff {A} (f : A -> bool) (l : list A) :
  existsb f l = true <-> (exists x, x ∈ l /\ f x = true).
Proof.
  rewrite existsb_exists. split; intros (x & Hx & Hf); exists x; split;
    try assumption; now apply list_elem_of_In.
Qed.

(** What [upsert_row] leaves in the other files. *)
Lemma upsert_row_other (st st' : gmap string DataFrame) (now : Z)
    (table : string) (data : gmap string cell) (pk t : string) :
  upsert_row st now table data pk = Ok st' ->
  t <> table -> fetch_table st' t = fetch_table st t.
Proof.
  unfold upsert_row. intros H Hne.
  destruct (df_empty (fetch_table st table));
    [| destruct (has_column (fetch_table st table) pk);
       [destruct (existsb _ _) |]];
    simpl in H; inversion H; subst; now apply fetch_to_csv_ne.
Qed.








(** Inversion of a step of the exception monad. *)
Lemma bind_Ok {A B} (r : result A) (k : A -> result B) (b : B) :
  bind r k = Ok b -> exists a, r = Ok a /\ k a = Ok b.
Proof. destruct r as [a|e]; simpl; [eauto | discriminate]. Qed.

Ltac bind_inv H :=
  let a := fresh "a" in
  let Ha := fresh "Ha" in
  apply bind_Ok in H as (a & Ha & H).

(** [insert_row] appends one row and rewrites one file. *)
Lemma insert_row_rows (st : gmap string DataFrame) (now : Z)
    (table : string) (data : gmap string cell) :
  exists data',
    rows (fetch_table (insert_row st now table data) table)
    = (rows (fetch_table st table) ++ [data'])%list
    /\ (forall k, k <> "id" -> data' !! k = data !! k).
Proof.
  unfold insert_row. rewrite fetch_to_csv_eq. simpl.
  destruct (data !! "id") as [v|] eqn:Hid; [destruct (truthy v)|];
    eexists; (split; [reflexivity|]); intros k Hk;
    rewrite ?lookup_insert_ne by congruence; reflexivity.
Qed.

Lemma insert_row_other (st : gmap string DataFrame) (now : Z)
    (table : string) (data : gmap string cell) (t : string) :
  t <> table -> fetch_table (insert_row st now table data) t = fetch_table st t.
Proof. intros Hne. unfold insert_row. now apply fetch_to_csv_ne. Qed.

(** The rows of a table through [upsert_row]: every stored row stays
    at its index, and keeps every column that the record (with its
    key) does not name; the key keeps its text. *)
Lemma upsert_row_keeps (st st' : gmap string DataFrame) (now : Z)
    (table : string) (data : gmap string cell) (pk : string) :
  upsert_row st now table data pk = Ok st' ->
  df_empty (fetch_table st table) = false ->
  forall (i : nat) (r : gmap string cell),
    rows (fetch_table st table) !! i = Some r ->
    exists r',
      rows (fetch_table st' table) !! i = Some r'
      /\ (forall k, k <> pk -> data !! k = None -> r' !! k = r !! k)
      /\ py_str (cell_at r' pk) = py_str (cell_at r pk).
Proof.
  unfold upsert_row. intros Hrun Hne i r Hi. rewrite Hne in Hrun.
  set (df := fetch_table st table) in *.
  set (data' := if key_blank data pk then <[pk := fresh_key now]> data else data)
    in *.
  assert (Hdata' : forall k, k <> pk -> data !! k = None -> data' !! k = None).
  { intros k Hk Hnone. unfold data'. destruct (key_blank data pk); [|exact Hnone].
    now rewrite lookup_insert_ne by congruence. }
  destruct (has_column df pk); [|discriminate].
  destruct (existsb _ (rows df)) eqn:Hex; simpl in Hrun;
    injection Hrun as <-; rewrite fetch_to_csv_eq; simpl.
  - rewrite list_lookup_fmap, Hi. simpl.
    destruct (String.eqb (py_str (cell_at r pk)) (py_str (cell_at data' pk)))
      eqn:Hm.
    + eexists. split; [reflexivity|]. split.
      * intros k Hk Hnone. apply lookup_union_r. now apply Hdata'.
      * apply String.eqb_eq in Hm. rewrite Hm. unfold cell_at at 1.
        destruct (data' !! pk) as [v|] eqn:Hv.
        -- rewrite (lookup_union_Some_l _ _ _ _ Hv).
           unfold cell_at. now rewrite Hv.
        -- rewrite (lookup_union_r _ _ _ Hv).
           fold (cell_at r pk). rewrite Hm. unfold cell_at. now rewrite Hv.
    + exists r. split; [reflexivity|]. split; [intros; reflexivity | reflexivity].
  - exists r. split; [|split; [intros; reflexivity | reflexivity]].
    apply lookup_app_l_Some. exact Hi.
Qed.

(** ** The price of an appointment *)






(** The status update on the sample clinic: the row keeps its price
    and takes the new status. *)
Example page_citas_sample :
  (rows (fetch_table (run_action clinic (UpdateStatus 3000 "77" "atendida"))
           "appointments"))
  = [<["id" := CStr "77"]> (<["status" := CStr "atendida"]> first_appointment)].
Proof. vm_refl. Qed.

(** ** Booking *)

Lemma cell_eq_str_true (c : cell) (s : string) :
  cell_eq_str c s = true <-> c = CStr s.
Proof.
  destruct c as [t| | |]; simpl; try (split; [discriminate | congruence]).
  rewrite String.eqb_eq. split; congruence.
Qed.

Lemma elem_of_same_day_rows (apps : DataFrame) (prid : cell) (day : date)
    (rs : list (gmap string cell)) (r : gmap string cell) :
  same_day_rows apps prid day = Ok rs ->
  r ∈ rs <->
  r ∈ rows apps
  /\ py_str (cell_at r "professional_id") = py_str prid
  /\ has_column apps "date" = true
  /\ cell_at r "date" = CStr (isoformat day).
Proof.
  unfold same_day_rows. destruct (has_column apps "professional_id"); [|discriminate].
  intros H. injection H as <-.
  rewrite list_elem_of_filter, Is_true_true, !andb_true_iff, String.eqb_eq,
    cell_eq_str_true.
  tauto.
Qed.

(** The scan answers whether some scanned row has both times and
    overlaps the candidate. *)
Lemma conflict_scan_true (apps : DataFrame) (start_t end_t : string)
    (rs : list (gmap string cell)) :
  conflict_scan apps start_t end_t rs = true <->
  exists r, r ∈ rs
            /\ start_of apps r <> "" /\ end_of apps r <> ""
            /\ overlaps start_t end_t (start_of apps r) (end_of apps r) = true.
Proof.
  induction rs as [|r rs IH]; simpl.
  - split; [discriminate | intros (r & Hr & _); inversion Hr].
  - fold (start_of apps r) (end_of apps r).
    destruct (String.eqb_spec (start_of apps r) "") as [Hs | Hs];
      [|destruct (String.eqb_spec (end_of apps r) "") as [He | He]]; simpl.
    + rewrite IH. split; intros (x & Hx & Hsx & Hex & Ho).
      * exists x. split; [now right | auto].
      * apply elem_of_cons in Hx as [-> | Hx]; [congruence | eauto].
    + rewrite IH. split; intros (x & Hx & Hsx & Hex & Ho).
      * exists x. split; [now right | auto].
      * apply elem_of_cons in Hx as [-> | Hx]; [congruence | eauto].
    + destruct (overlaps start_t end_t (start_of apps r) (end_of apps r)) eqn:Ho.
      * split; [|reflexivity]. intros _. exists r. split; [left | auto].
      * rewrite IH. split; intros (x & Hx & Hsx & Hex & Hox).
        -- exists x. split; [now right | auto].
        -- apply elem_of_cons in Hx as [-> | Hx]; [congruence | eauto].
Qed.

(** A row without a start or an end is passed over by the scan; this is
    what [if not s2 or not e2: continue] does for a table that lacks
    the column and for a cell holding the empty string. *)
Lemma conflict_scan_skips (apps : DataFrame) (start_t end_t : string)
    (r : gmap string cell) (rs : list (gmap string cell)) :
  start_of apps r = "" \/ end_of apps r = "" ->
  conflict_scan apps start_t end_t (r :: rs)
  = conflict_scan apps start_t end_t rs.
Proof.
  intros H. simpl. fold (start_of apps r) (end_of apps r).
  destruct H as [-> | ->]; simpl; [reflexivity|].
  now rewrite orb_true_r.
Qed.

Section Booking.

Variables (st : gmap string DataFrame) (now : Z) (created_at : string).
Variable f : booking.
Variables (pid prid price : cell) (sr : gmap string cell).
Variables (hh mm t : Z) (end_dt : datetime).

Let pats := fetch_table st "patients".
Let pros := fetch_table st "professionals".
Let srvs := fetch_table st "services".
Let apps := fetch_table st "appointments".
Let start_t := slot f +:+ ":00".
Let end_t := strftime_HMS end_dt.

Hypothesis chosen :
  psel f <> placeholder /\ prosel f <> placeholder /\ ssel f <> placeholder.
Hypothesis patient_found : first_id pats "full_name" (psel f) = Ok pid.
Hypothesis professional_found : first_id pros "full_name" (prosel f) = Ok prid.
Hypothesis service_found : first_row srvs "name" (ssel f) = Ok sr.
Hypothesis service_keyed : has_column srvs "id" = true.
Hypothesis service_price :
  py_float (row_get srvs sr "price" (CNum 0)) = Ok price.
Hypothesis slot_parsed : parse_hm (slot f) = Ok (hh, mm).
Hypothesis slot_time : py_time hh mm = Ok t.
Hypothesis end_in_range :
  datetime_add (combine (bday f) t) (dur f) = Ok end_dt.
Hypothesis professional_column : has_column apps "professional_id" = true.


End Booking.


(** On the sample clinic: 09:15 falls inside the stored appointment and
    is rejected without a write; 09:30, where that appointment ends, is
    booked. *)
Example booking_inside_rejected :
  page_agenda clinic 2000 "2024-05-01T08:00:00" quarter_past_nine
  = Ok (clinic, UiError conflict_msg).
Proof. vm_refl. Qed.

Example booking_adjacent_accepted :
  exists st',
    page_agenda clinic 2000 "2024-05-01T08:00:00" half_past_nine
    = Ok (st', UiSuccess "Cita creada.")
    /\ length (rows (fetch_table st' "appointments")) = 2%nat.
Proof.
  exists (run_action clinic
            (CreateAppointment 2000 "2024-05-01T08:00:00" half_past_nine)).
  split; vm_refl.
Qed.

(** C10, at a stored appointment whose end time is missing from the
    file: the cell reads back as NaN, [str] makes it "nan", which is
    not empty, so the scan does not pass over the row; it compares the
    candidate with the start of the row and rejects the booking.  With
    the row out of the table the same booking is written. *)
Theorem missing_end_time_not_skipped :
  isna (row_get (fetch_table clinic_open_ended "appointments") open_ended
          "end_time" (CStr "")) = true
  /\ end_of (fetch_table clinic_open_ended "appointments") open_ended = "nan"
  /\ page_agenda clinic_open_ended 2000 "2024-05-01T08:00:00"
       quarter_past_nine
     = Ok (clinic_open_ended, UiError conflict_msg)
  /\ exists st',
       page_agenda clinic_idle 2000 "2024-05-01T08:00:00"
         quarter_past_nine
       = Ok (st', UiSuccess "Cita creada.").
Proof.
  split; [vm_refl|]. split; [vm_refl|]. split; [vm_refl|].
  exists (run_action clinic_idle
            (CreateAppointment 2000 "2024-05-01T08:00:00" quarter_past_nine)).
  vm_refl.
Qed.

(** ** The KPI cards *)





Section Cards.

Variable regex_search : string -> string -> bool.
Variable secrets : gmap string cell.


End Cards.



(** The cards of May on the sample clinic, without a filter. *)
Example kpis_of_may :
  cards_of (page_reportes literal_search ∅ clinic_two may_first may_last "")
  = Some (mkKpis 2 1 0 0 55000).
Proof. vm_refl. Qed.


(** ** Occupancy *)

Lemma nunique_pos (cs : list cell) :
  0 < nunique cs <-> exists c, c ∈ cs /\ isna c = false.
Proof.
  unfold nunique.
  destruct (remove_dups (filter (fun c => isna c = false) cs)) as [|c l] eqn:Hl.
  - split; [simpl; lia|]. intros (c & Hc & Hna). exfalso.
    assert (Hin : c ∈ remove_dups (filter (fun c => isna c = false) cs)).
    { apply elem_of_remove_dups, list_elem_of_filter. auto. }
    rewrite Hl in Hin. inversion Hin.
  - split; [|simpl; lia]. intros _.
    assert (Hin : c ∈ remove_dups (filter (fun c => isna c = false) cs))
      by (rewrite Hl; left).
    apply elem_of_remove_dups, list_elem_of_filter in Hin as [Hna Hin].
    eauto.
Qed.

Lemma nunique_nonneg (cs : list cell) : 0 <= nunique cs.
Proof. unfold nunique. lia. Qed.

Lemma elem_of_column (rs : list (gmap string cell)) (k : string) (c : cell) :
  c ∈ column rs k <-> exists r, r ∈ rs /\ cell_at r k = c.
Proof.
  unfold column. rewrite list_elem_of_fmap.
  split; intros (r & H1 & H2); exists r; auto.
Qed.

(** C6 (amended): for settings that give a block size other than zero
    and a workday start and end of the form H:M, and every report scope
    with the two columns: slots-per-day is
    (end - start + block) // block, raised to 1 when it is smaller; the
    divisor is distinct professionals x distinct dates x slots-per-day,
    null ids and dates not counted; it is positive exactly when some
    row of the scope has a professional id and some row has a date, and
    then the occupancy is rows / divisor x 100; otherwise the occupancy
    shown is 0. *)
Theorem occupancy_of_scope (secrets : gmap string cell) (scope : DataFrame)
    (block : Z) (start_day end_day : string) (s_h s_m e_h e_m : Z) :
  py_int (default (CNum 30) (secrets !! "block_minutes")) = Ok block ->
  setting_str secrets "workday_start" "09:00" = Ok start_day ->
  parse_hm start_day = Ok (s_h, s_m) ->
  setting_str secrets "workday_end" "18:30" = Ok end_day ->
  parse_hm end_day = Ok (e_h, e_m) ->
  block <> 0 ->
  has_column scope "professional_id" = true ->
  has_column scope "date" = true ->
  exists occ,
    report_occupancy secrets scope = Ok occ
    /\ slots_por_dia occ
       = Z.max 1 ((e_h * 60 + e_m - (s_h * 60 + s_m) + block) / block)
    /\ 1 <= slots_por_dia occ
    /\ pros_in_scope occ = nunique (column (rows scope) "professional_id")
    /\ dias_distintos occ = nunique (column (rows scope) "date")
    /\ total_slots_disp occ
       = pros_in_scope occ * dias_distintos occ * slots_por_dia occ
    /\ (0 < total_slots_disp occ <->
        (exists r, r ∈ rows scope /\ isna (cell_at r "professional_id") = false)
        /\ (exists r, r ∈ rows scope /\ isna (cell_at r "date") = false))
    /\ (0 < total_slots_disp occ ->
        ocup occ
        = (inject_Z (Z.of_nat (length (rows scope)))
           / inject_Z (total_slots_disp occ) * inject_Z 100)%Q)
    /\ (total_slots_disp occ <= 0 -> ocup occ = 0%Q).
Proof.
  intros Hblock Hstart Hs Hend He Hnz Hpro Hdate.
  unfold report_occupancy.
  rewrite Hblock. cbn [bind]. rewrite Hstart. cbn [bind].
  rewrite Hs. cbn [bind]. rewrite Hend. cbn [bind]. rewrite He. cbn [bind fst snd].
  destruct (Z.eqb_spec block 0) as [|_]; [contradiction|].
  rewrite Hpro, Hdate.
  set (p := nunique (column (rows scope) "professional_id")).
  set (d := nunique (column (rows scope) "date")).
  set (slots := Z.max 1 ((e_h * 60 + e_m - (s_h * 60 + s_m) + block) / block)).
  eexists. split; [reflexivity|]. cbn [slots_por_dia pros_in_scope
    dias_distintos total_slots_disp ocup].
  assert (Hslots : 1 <= slots) by (unfold slots; lia).
  pose proof (nunique_nonneg (column (rows scope) "professional_id")) as Hp0.
  pose proof (nunique_nonneg (column (rows scope) "date")) as Hd0.
  fold p in Hp0. fold d in Hd0.
  repeat (split; [reflexivity || exact Hslots|]).
  split; [|split].
  - assert (Hpd : 0 < p * d * slots <-> 0 < p /\ 0 < d) by nia.
    rewrite Hpd. unfold p, d. rewrite !nunique_pos.
    split.
    + intros [(c1 & H1 & Hn1) (c2 & H2 & Hn2)].
      apply elem_of_column in H1 as (r1 & Hr1 & <-).
      apply elem_of_column in H2 as (r2 & Hr2 & <-).
      split; [exists r1 | exists r2]; auto.
    + intros [(r1 & Hr1 & Hn1) (r2 & Hr2 & Hn2)]. split.
      * exists (cell_at r1 "professional_id").
        split; [apply elem_of_column; eauto | assumption].
      * exists (cell_at r2 "date").
        split; [apply elem_of_column; eauto | assumption].
  - intros Hpos. destruct (Z.gtb_spec (p * d * slots) 0); [reflexivity | lia].
  - intros Hle. destruct (Z.gtb_spec (p * d * slots) 0); [lia | reflexivity].
Qed.

Lemma occupancy_of_scope_witness :
  exists occ,
    report_occupancy ∅ (fetch_table clinic_two "appointments") = Ok occ
    /\ slots_por_dia occ
       = Z.max 1 ((18 * 60 + 30 - (9 * 60 + 0) + 30) / 30)
    /\ 1 <= slots_por_dia occ
    /\ pros_in_scope occ
       = nunique (column (rows (fetch_table clinic_two "appointments"))
                    "professional_id")
    /\ dias_distintos occ
       = nunique (column (rows (fetch_table clinic_two "appointments")) "date")
    /\ total_slots_disp occ
       = pros_in_scope occ * dias_distintos occ * slots_por_dia occ
    /\ (0 < total_slots_disp occ <->
        (exists r, r ∈ rows (fetch_table clinic_two "appointments")
                   /\ isna (cell_at r "professional_id") = false)
        /\ (exists r, r ∈ rows (fetch_table clinic_two "appointments")
                      /\ isna (cell_at r "date") = false))
    /\ (0 < total_slots_disp occ ->
        ocup occ
        = (inject_Z (Z.of_nat (length (rows (fetch_table clinic_two
                                               "appointments"))))
           / inject_Z (total_slots_disp occ) * inject_Z 100)%Q)
    /\ (total_slots_disp occ <= 0 -> ocup occ = 0%Q).
Proof.
  apply (occupancy_of_scope ∅ (fetch_table clinic_two "appointments") 30
           "09:00" "18:30" 9 0 18 30); try vm_refl.
  discriminate.
Defined.

(** The occupancy of May on the sample clinic: 2 appointments over
    2 professionals x 2 days x 20 slots. *)
Example occupancy_of_may :
  report_occupancy ∅ (fetch_table clinic_two "appointments")
  = Ok (mkOccupancy 20 2 2 80 (inject_Z 2 / inject_Z 80 * inject_Z 100)%Q).
Proof. vm_refl. Qed.

(** C6, counterexample: the only appointment of the period has no
    professional id; the page shows its card, the divisor of the
    occupancy is 0 and the occupancy shown is 0. *)
Lemma occupancy_divisor_zero :
  page_reportes literal_search ∅ clinic_unassigned may_first may_last ""
  = Ok (Cards (mkKpis 1 0 0 0 30000) (Ok (mkOccupancy 20 0 1 0 0%Q)))
  /\ ~ occupancy_divisor_positive.
Proof.
  split; [vm_refl|].
  intros H.
  assert (Hocc : report_occupancy ∅ (fetch_table clinic_unassigned "appointments")
                 = Ok (mkOccupancy 20 0 1 0 0%Q)) by vm_refl.
  assert (Hrows : rows (fetch_table clinic_unassigned "appointments")
                  = [unassigned]) by vm_refl.
  assert (Hne : rows (fetch_table clinic_unassigned "appointments") <> [])
    by (rewrite Hrows; discriminate).
  pose proof (H ∅ (fetch_table clinic_unassigned "appointments")
                (mkOccupancy 20 0 1 0 0%Q) Hne Hocc) as Hpos.
  cbn [total_slots_disp] in Hpos. lia.
Qed.

(** * Further properties *)

(** ** The gate and the script *)

(** X1: on a session that is not authenticated, a run of the gate
    authenticates exactly when the button was pressed and the
    configured [app_password] is a non-empty string equal to the
    password typed; it then records the email and reruns.  In every
    other case (button not pressed, wrong password, empty, numeric or
    missing setting) the session stays unauthenticated, keeps its
    email and the run stops on the login form. *)
Theorem login_succeeds_iff (secrets : gmap string cell) (ss : session_state)
    (email pwd : string) (clicked : bool) :
  authed ss <> Some true ->
  (authed (require_auth secrets ss email pwd clicked).1 = Some true <->
   clicked = true /\ secrets !! "app_password" = Some (CStr pwd) /\ pwd <> "")
  /\ (authed (require_auth secrets ss email pwd clicked).1 = Some true ->
      require_auth secrets ss email pwd clicked
      = (mkSession (Some true) (Some email), Rerun "Acceso concedido"))
  /\ (authed (require_auth secrets ss email pwd clicked).1 <> Some true ->
      authed (require_auth secrets ss email pwd clicked).1 = Some false
      /\ user_email (require_auth secrets ss email pwd clicked).1
         = user_email ss
      /\ exists err,
           (require_auth secrets ss email pwd clicked).2 = Stopped err).
Proof.
  intros Hss. unfold require_auth.
  assert (Hgate : negb (default false
            (authed match authed ss with
                    | Some _ => ss
                    | None => mkSession (Some false) (user_email ss)
                    end)) = true).
  { destruct ss as [[[|]|] mail]; simpl in *; congruence. }
  rewrite Hgate.
  assert (Hfalse : authed match authed ss with
                          | Some _ => ss
                          | None => mkSession (Some false) (user_email ss)
                          end = Some false
                   /\ user_email match authed ss with
                                 | Some _ => ss
                                 | None => mkSession (Some false) (user_email ss)
                                 end = user_email ss).
  { destruct ss as [[[|]|] mail]; simpl in *; try congruence; auto. }
  destruct Hfalse as [Hf Hmail].
  destruct clicked.
  2: { simpl. rewrite Hf. split; [|split].
       - split; [discriminate | intros [? _]; discriminate].
       - discriminate.
       - intros _. eauto. }
  destruct (secrets !! "app_password") as [[p|n| |]|] eqn:Hsec; simpl;
    try (rewrite Hf; split; [|split];
         [ split; [discriminate | intros (_ & H & _); discriminate]
         | discriminate
         | intros _; eauto ]).
  - destruct (String.eqb_spec p "") as [-> | Hp]; simpl.
    + rewrite Hf. split; [|split].
      * split; [discriminate|]. intros (_ & H & Hne). congruence.
      * discriminate.
      * intros _. eauto.
    + destruct (bool_decide_reflect (CStr pwd = CStr p)) as [Heq | Hne]; simpl.
      * injection Heq as ->. split; [|split].
        -- split; auto.
        -- reflexivity.
        -- intros H. congruence.
      * rewrite Hf. split; [|split].
        -- split; [discriminate|]. intros (_ & H & _). congruence.
        -- discriminate.
        -- intros _. eauto.
  - (* a number never equals the typed text *)
    destruct (negb (n =? 0)); simpl; rewrite Hf; (split; [|split]);
      [ split; [discriminate | intros (_ & H & _); discriminate]
      | discriminate | intros _; eauto
      | split; [discriminate | intros (_ & H & _); discriminate]
      | discriminate | intros _; eauto ].
Qed.

Lemma login_succeeds_iff_witness :
  (authed (require_auth (<["app_password" := CStr "cian"]> ∅)
             (mkSession None None) "a@b.cl" "cian" true).1 = Some true <->
   true = true
   /\ (<["app_password" := CStr "cian"]> ∅ : gmap string cell)
        !! "app_password" = Some (CStr "cian")
   /\ "cian" <> "")
  /\ (authed (require_auth (<["app_password" := CStr "cian"]> ∅)
                (mkSession None None) "a@b.cl" "cian" true).1 = Some true ->
      require_auth (<["app_password" := CStr "cian"]> ∅)
        (mkSession None None) "a@b.cl" "cian" true
      = (mkSession (Some true) (Some "a@b.cl"), Rerun "Acceso concedido"))
  /\ (authed (require_auth (<["app_password" := CStr "cian"]> ∅)
                (mkSession None None) "a@b.cl" "cian" true).1 <> Some true ->
      authed (require_auth (<["app_password" := CStr "cian"]> ∅)
                (mkSession None None) "a@b.cl" "cian" true).1 = Some false
      /\ user_email (require_auth (<["app_password" := CStr "cian"]> ∅)
                       (mkSession None None) "a@b.cl" "cian" true).1
         = user_email (mkSession None None)
      /\ exists err,
           (require_auth (<["app_password" := CStr "cian"]> ∅)
              (mkSession None None) "a@b.cl" "cian" true).2 = Stopped err).
Proof.
  apply (login_succeeds_iff (<["app_password" := CStr "cian"]> ∅)
           (mkSession None None) "a@b.cl" "cian" true).
  discriminate.
Defined.

Lemma require_auth_authed (secrets : gmap string cell) (ss : session_state)
    (email pwd : string) (clicked : bool) :
  authed ss = Some true ->
  require_auth secrets ss email pwd clicked = (ss, Proceed).
Proof.
  intros H. unfold require_auth. rewrite H. simpl. now rewrite H.
Qed.

(** X2: an authenticated session passes the gate untouched, whatever is
    typed and whatever the settings hold by then; no sequence of runs
    of the gate changes it, so nothing in the script logs a session
    out. *)
Theorem authenticated_session_stays (secrets : gmap string cell)
    (ss : session_state) :
  authed ss = Some true ->
  (forall (email pwd : string) (clicked : bool),
     require_auth secrets ss email pwd clicked = (ss, Proceed))
  /\ (forall inputs : list (string * string * bool),
        auth_session secrets ss inputs = ss).
Proof.
  intros H. split.
  - intros email pwd clicked. now apply require_auth_authed.
  - intros inputs. induction inputs as [|[[email pwd] clicked] rest IH]; simpl.
    + reflexivity.
    + now rewrite require_auth_authed.
Qed.

Lemma authenticated_session_stays_witness :
  (forall (email pwd : string) (clicked : bool),
     require_auth ∅ (mkSession (Some true) (Some "a@b.cl")) email pwd clicked
     = (mkSession (Some true) (Some "a@b.cl"), Proceed))
  /\ (forall inputs : list (string * string * bool),
        auth_session ∅ (mkSession (Some true) (Some "a@b.cl")) inputs
        = mkSession (Some true) (Some "a@b.cl")).
Proof.
  apply (authenticated_session_stays ∅ (mkSession (Some true) (Some "a@b.cl"))).
  reflexivity.
Defined.

Lemma main_unauthenticated (secrets : gmap string cell) (ss : session_state)
    (st : gmap string DataFrame) (email pwd : string) (clicked : bool)
    (act : option action) :
  authed ss <> Some true ->
  (main secrets ss st email pwd clicked act).2 = st.
Proof.
  intros Hss. unfold main, require_auth.
  destruct ss as [[[|]|] mail]; simpl in *; try congruence;
    destruct clicked; simpl; try reflexivity;
    destruct (_ && _); reflexivity.
Qed.

Lemma main_session_locked (secrets : gmap string cell)
    (runs : list (string * string * bool * option action)) :
  secrets !! "app_password" = None ->
  forall (ss : session_state) (st : gmap string DataFrame),
    authed ss <> Some true ->
    (main_session secrets ss st runs).2 = st.
Proof.
  intros Hno. induction runs as [|[[[email pwd] clicked] act] rest IH];
    intros ss st Hss; simpl; [reflexivity|].
  rewrite IH.
  - now apply main_unauthenticated.
  - unfold main.
    destruct (require_auth_step secrets Hno ss email pwd clicked Hss)
      as [Hf Hout].
    destruct (require_auth secrets ss email pwd clicked) as [ss' out].
    simpl in *. subst out. simpl. rewrite Hf. discriminate.
Qed.

(** X3: a run of the script that starts on an unauthenticated session
    writes nothing, whatever button the run carries: the pages are not
    reached.  Without an [app_password] in the settings no sequence of
    runs from a new session ever changes a file. *)
Theorem pages_behind_gate (secrets : gmap string cell) :
  (forall (ss : session_state) (st : gmap string DataFrame)
          (email pwd : string) (clicked : bool) (act : option action),
     authed ss <> Some true ->
     (main secrets ss st email pwd clicked act).2 = st)
  /\ (secrets !! "app_password" = None ->
      forall (st : gmap string DataFrame)
             (runs : list (string * string * bool * option action)),
        (main_session secrets (mkSession None None) st runs).2 = st).
Proof.
  split.
  - intros. now apply main_unauthenticated.
  - intros Hno st runs. apply main_session_locked; [exact Hno | discriminate].
Qed.

Lemma pages_behind_gate_witness :
  (main (<["app_password" := CStr "cian"]> ∅) (mkSession None None) clinic
     "a@b.cl" "cian" true (Some (UpdateStatus 3000 "77" "atendida"))).2
  = clinic
  /\ (forall (st : gmap string DataFrame)
             (runs : list (string * string * bool * option action)),
        (main_session ∅ (mkSession None None) st runs).2 = st).
Proof.
  split.
  - apply (proj1 (pages_behind_gate (<["app_password" := CStr "cian"]> ∅))).
    discriminate.
  - apply (proj2 (pages_behind_gate ∅)). reflexivity.
Defined.

(** ** More of the persistence adapter *)

Lemma elem_of_keys (data : gmap string cell) (k : string) :
  k ∈ keys data <-> is_Some (data !! k).
Proof.
  unfold keys. rewrite list_elem_of_fmap. split.
  - intros ([k' v] & -> & H). apply elem_of_map_to_list in H. eauto.
  - intros [v H]. exists (k, v). split; [reflexivity|].
    now apply elem_of_map_to_list.
Qed.

Lemma elem_of_add_columns (cols ks : list string) (k : string) :
  k ∈ add_columns cols ks <-> k ∈ cols \/ k ∈ ks.
Proof.
  unfold add_columns. rewrite elem_of_app, list_elem_of_filter. split.
  - intros [H | [_ H]]; auto.
  - intros [H | H]; [auto|]. destruct (decide (k ∈ cols)); auto.
Qed.


Lemma has_column_true (df : DataFrame) (k : string) :
  has_column df k = true <-> k ∈ columns df.
Proof. unfold has_column. apply bool_decide_eq_true. Qed.

Lemma str_of_int_nonempty (n : Z) : str_of_int n <> "".
Proof.
  unfold str_of_int. destruct (Z.to_int n) as [d | d]; [|discriminate].
  destruct d; discriminate.
Qed.

Lemma insert_row_columns (st : gmap string DataFrame) (now : Z)
    (table : string) (data : gmap string cell) :
  has_column (fetch_table (insert_row st now table data) table) "id" = true
  /\ (forall c, has_column (fetch_table st table) c = true ->
        has_column (fetch_table (insert_row st now table data) table) c = true).
Proof.
  unfold insert_row. rewrite fetch_to_csv_eq. split.
  - apply has_column_true, elem_of_add_columns. right. apply elem_of_keys.
    destruct (data !! "id") as [v|] eqn:Hv; [destruct (truthy v)|];
      rewrite ?lookup_insert_eq, ?Hv; eauto.
  - intros c Hc. apply has_column_true, elem_of_add_columns. left.
    now apply has_column_true.
Qed.

(** X4: [insert_row] always appends exactly one row.  The stored rows
    stay in place and in order, also when one of them already carries
    the id of the record: there is no uniqueness check.  The new row
    keeps the id of the record when it is truthy and takes the clock
    key otherwise (id absent, None, empty or 0), so it always has a
    truthy id; its other columns are those of the record.  Columns are
    only added, [id] is among them, and the other tables are left
    alone. *)
Theorem insert_row_appends (st : gmap string DataFrame) (now : Z)
    (table : string) (data : gmap string cell) :
  exists row,
    rows (fetch_table (insert_row st now table data) table)
    = (rows (fetch_table st table) ++ [row])%list
    /\ (forall k, k <> "id" -> row !! k = data !! k)
    /\ (exists v, row !! "id" = Some v /\ truthy v = true)
    /\ (forall v, data !! "id" = Some v -> truthy v = true -> row = data)
    /\ ((forall v, data !! "id" = Some v -> truthy v = false) ->
        row !! "id" = Some (CStr (str_of_int now)))
    /\ has_column (fetch_table (insert_row st now table data) table) "id" = true
    /\ (forall c, has_column (fetch_table st table) c = true ->
          has_column (fetch_table (insert_row st now table data) table) c = true)
    /\ (forall t, t <> table ->
          fetch_table (insert_row st now table data) t = fetch_table st t).
Proof.
  assert (Hfresh : truthy (fresh_key now) = true).
  { unfold fresh_key. simpl. apply negb_true_iff, String.eqb_neq,
      str_of_int_nonempty. }
  unfold insert_row. rewrite fetch_to_csv_eq.
  set (row := match data !! "id" with
              | Some v => if truthy v then data else <["id" := fresh_key now]> data
              | None => <["id" := fresh_key now]> data
              end).
  assert (Hid : exists v, row !! "id" = Some v /\ truthy v = true).
  { unfold row. destruct (data !! "id") as [v|] eqn:Hv;
      [destruct (truthy v) eqn:Ht|].
    - exists v. auto.
    - exists (fresh_key now). split; [apply lookup_insert_eq | exact Hfresh].
    - exists (fresh_key now). split; [apply lookup_insert_eq | exact Hfresh]. }
  exists row. split; [reflexivity|].
  split; [|split; [exact Hid|split; [|split; [|split; [|split]]]]].
  - intros k Hk. unfold row.
    destruct (data !! "id") as [v|]; [destruct (truthy v)|];
      rewrite ?lookup_insert_ne by congruence; reflexivity.
  - intros v Hv Ht. unfold row. now rewrite Hv, Ht.
  - intros Hno. unfold row. destruct (data !! "id") as [v|] eqn:Hv.
    + rewrite (Hno v eq_refl). apply lookup_insert_eq.
    + apply lookup_insert_eq.
  - apply has_column_true. cbn [columns concat_record].
    apply elem_of_add_columns. right. apply elem_of_keys.
    destruct Hid as (v & Hv & _). eauto.
  - intros c Hc. apply has_column_true. cbn [columns concat_record].
    apply elem_of_add_columns. left. now apply has_column_true.
  - intros t Ht. now apply fetch_to_csv_ne.
Qed.

Lemma filter_all {A} (P : A -> Prop) `{forall x, Decision (P x)} (l : list A) :
  (forall x, x ∈ l -> P x) -> filter P l = l.
Proof.
  induction l as [|a l IH]; intros Hl; [reflexivity|].
  rewrite filter_cons. destruct (decide (P a)) as [_ | Hn].
  - f_equal. apply IH. intros x Hx. apply Hl. now right.
  - destruct Hn. apply Hl. left.
Qed.

Lemma filter_twice {A} (P : A -> Prop) `{forall x, Decision (P x)} (l : list A) :
  filter P (filter P l) = filter P l.
Proof.
  apply filter_all. intros x Hx. now apply list_elem_of_filter in Hx as [Hx _].
Qed.



(** X6: [delete_row] is idempotent: deleting the same key again leaves
    the directory exactly as the first deletion left it. *)
Theorem delete_row_idempotent (st st1 : gmap string DataFrame)
    (table : string) (pk_value : cell) (pk : string) :
  delete_row st table pk_value pk = Ok st1 ->
  delete_row st1 table pk_value pk = Ok st1.
Proof.
  unfold delete_row. intros H.
  destruct (df_empty (fetch_table st table)) eqn:He.
  - injection H as <-. now rewrite He.
  - destruct (has_column (fetch_table st table) pk) eqn:Hcol; [|discriminate].
    injection H as <-. rewrite fetch_to_csv_eq.
    match goal with
    | |- context [df_empty ?d] => destruct (df_empty d) eqn:He1
    end; [reflexivity|].
    change (has_column (mkDF (columns (fetch_table st table)) _) pk)
      with (has_column (fetch_table st table) pk).
    rewrite Hcol. cbn [columns rows]. rewrite filter_twice.
    unfold to_csv. now rewrite insert_insert_eq.
Qed.

Lemma delete_row_idempotent_witness :
  delete_row
    (<["appointments" := mkDF (default_columns "appointments")
                              [second_appointment]]> clinic_two)
    "appointments" (CStr "77") "id"
  = Ok (<["appointments" := mkDF (default_columns "appointments")
                                 [second_appointment]]> clinic_two).
Proof.
  apply (delete_row_idempotent clinic_two). vm_refl.
Defined.



(** The three ways [upsert_row] returns, for a record [data'] that has
    its key (given or generated). *)
Lemma upsert_row_cases (st st' : gmap string DataFrame) (now : Z)
    (table : string) (data : gmap string cell) (pk : string) :
  upsert_row st now table data pk = Ok st' ->
  exists data' df',
    data' = (if key_blank data pk then <[pk := fresh_key now]> data else data)
    /\ st' = to_csv st table df'
    /\ ((df_empty (fetch_table st table) = true /\ df' = df_of_record data')
        \/ (df_empty (fetch_table st table) = false
            /\ has_column (fetch_table st table) pk = true
            /\ (exists r, r ∈ rows (fetch_table st table)
                          /\ py_str (cell_at r pk) = py_str (cell_at data' pk))
            /\ df' = mkDF (add_columns (columns (fetch_table st table))
                                       (keys data'))
                          (map (overwrite data' pk (py_str (cell_at data' pk)))
                               (rows (fetch_table st table))))
        \/ (df_empty (fetch_table st table) = false
            /\ has_column (fetch_table st table) pk = true
            /\ (forall r, r ∈ rows (fetch_table st table) ->
                  py_str (cell_at r pk) <> py_str (cell_at data' pk))
            /\ df' = concat_record (fetch_table st table) data')).
Proof.
  unfold upsert_row. intros H.
  set (data' := if key_blank data pk then <[pk := fresh_key now]> data else data)
    in *.
  exists data'.
  destruct (df_empty (fetch_table st table)) eqn:He.
  - injection H as <-. eexists. split; [reflexivity|]. split; [reflexivity|].
    left. auto.
  - destruct (has_column (fetch_table st table) pk) eqn:Hcol; [|discriminate].
    destruct (existsb _ (rows (fetch_table st table))) eqn:Hex;
      injection H as <-; eexists; (split; [reflexivity|]);
      (split; [reflexivity|]); right.
    + left. repeat split; try reflexivity.
      apply existsb_true_iff in Hex as (r & Hr & Hm).
      exists r. split; [exact Hr|]. now apply String.eqb_eq.
    + right. repeat split; try reflexivity.
      intros r Hr. rewrite existsb_false_iff in Hex.
      apply String.eqb_neq. now apply Hex.
Qed.





Lemma key_blank_false_Some (data : gmap string cell) (pk : string) :
  key_blank data pk = false -> is_Some (data !! pk).
Proof. unfold key_blank. destruct (data !! pk); [eauto | discriminate]. Qed.




(** ** More of the slot generator *)

Lemma int_of_str_body (s : string) :
  exists (neg : bool) (r : string),
    int_of_str s = match digits_val 0 false r with
                   | Some n => Ok (if neg then - n else n)
                   | None => Raise ValueError
                   end.
Proof.
  unfold int_of_str. destruct (strip s) as [|c r]; cbv zeta.
  - exists false, "". reflexivity.
  - destruct c as [[|] [|] [|] [|] [|] [|] [|] [|]];
      first [ exists true, r; reflexivity
            | exists false, r; reflexivity
            | eexists false, _; reflexivity ].
Qed.

Lemma int_of_str_raises (s : string) (e : exn) :
  int_of_str s = Raise e -> e = ValueError.
Proof.
  destruct (int_of_str_body s) as (neg & r & ->).
  destruct (digits_val 0 false r); [discriminate | congruence].
Qed.

Lemma parse_hm_raises (s : string) (e : exn) :
  parse_hm s = Raise e -> e = ValueError.
Proof.
  unfold parse_hm.
  destruct (split ":" s) as [|a [|b [|c l]]]; try congruence.
  destruct (int_of_str a) eqn:Ha; simpl.
  - destruct (int_of_str b) eqn:Hb; simpl; [discriminate|].
    intros [= <-]. now apply (int_of_str_raises b).
  - intros [= <-]. now apply (int_of_str_raises a).
Qed.

Lemma py_time_raises (h m : Z) (e : exn) :
  py_time h m = Raise e -> e = ValueError.
Proof. unfold py_time. destruct (_ && _); [discriminate | congruence]. Qed.

Lemma time_of_day_raises (s : string) (e : exn) :
  time_of_day s = Raise e -> e = ValueError.
Proof.
  unfold time_of_day. destruct (parse_hm s) as [[h m]|e'] eqn:Hp; simpl.
  - apply py_time_raises.
  - intros [= <-]. now apply (parse_hm_raises s).
Qed.


(** [generate_slots] in terms of the two times of day. *)
Lemma generate_slots_times (fuel : nat) (today : date) (block : Z)
    (start end_ : string) :
  generate_slots fuel today block start end_
  = match time_of_day start, time_of_day end_ with
    | Ok s, Ok e =>
        slots_loop fuel block (combine today s) (combine today e) []
    | _, _ => Some (Raise ValueError)
    end.
Proof.
  unfold generate_slots, time_of_day.
  destruct (parse_hm start) as [[s_h s_m]|e1] eqn:H1; simpl.
  - destruct (parse_hm end_) as [[e_h e_m]|e2] eqn:H2; simpl.
    + destruct (py_time s_h s_m) as [s|e3] eqn:H3.
      * destruct (py_time e_h e_m) as [e|e4] eqn:H4; [reflexivity|].
        now rewrite (py_time_raises _ _ _ H4).
      * rewrite (py_time_raises _ _ _ H3). now destruct (py_time e_h e_m).
    + rewrite (parse_hm_raises _ _ H2). now destruct (py_time s_h s_m).
  - now rewrite (parse_hm_raises _ _ H1).
Qed.



Lemma slots_loop_zero (fuel : nat) :
  forall cur end_dt acc,
    datetime_min <= cur <= datetime_max -> cur <= end_dt ->
    slots_loop fuel 0 cur end_dt acc = None.
Proof.
  induction fuel as [|fuel IH]; intros cur end_dt acc Hc Hle; simpl;
    [reflexivity|].
  destruct (Z.leb_spec cur end_dt); [|lia].
  unfold datetime_add. rewrite Z.add_0_r.
  destruct (Z.leb_spec datetime_min cur); [|lia].
  destruct (Z.leb_spec cur datetime_max); [|lia].
  simpl. now apply IH.
Qed.

Lemma slots_loop_negative (n : nat) :
  forall fuel block cur end_dt acc,
    block < 0 ->
    datetime_min <= cur <= datetime_max -> cur <= end_dt ->
    cur + Z.of_nat n * block < datetime_min ->
    (n <= fuel)%nat ->
    slots_loop fuel block cur end_dt acc = Some (Raise OverflowError).
Proof.
  induction n as [|n IH]; intros fuel block cur end_dt acc Hb Hc Hle Hn Hfuel;
    [simpl in Hn; lia|].
  destruct fuel as [|fuel]; [lia|]. simpl.
  destruct (Z.leb_spec cur end_dt); [|lia].
  unfold datetime_add.
  destruct (Z.leb_spec datetime_min (cur + block)); simpl; [|reflexivity].
  destruct (Z.leb_spec (cur + block) datetime_max); simpl; [|reflexivity].
  apply IH; lia.
Qed.

Lemma combine_in_range (today : date) (t : Z) :
  valid_date today = true -> 0 <= t < 1440 ->
  datetime_min <= combine today t <= datetime_max.
Proof.
  intros Hd Ht. pose proof (toordinal_range today Hd).
  unfold combine, datetime_min, datetime_max. lia.
Qed.

Lemma time_of_day_range (s : string) (t : Z) :
  time_of_day s = Ok t -> 0 <= t < 1440.
Proof.
  unfold time_of_day. destruct (parse_hm s) as [[h m]|]; simpl; [|discriminate].
  unfold py_time.
  destruct (Z.leb_spec 0 h), (Z.leb_spec h 23), (Z.leb_spec 0 m),
    (Z.leb_spec m 59); simpl; try discriminate.
  intros [= <-]. lia.
Qed.

(** X12: with start <= end, a block size that is not positive never
    yields a list.  With a block of 0 the loop does not advance: it is
    still running after any number of iterations.  With a negative
    block it walks back in time until the datetime leaves year 1 and
    the call raises [OverflowError]. *)
Theorem generate_slots_bad_block (today : date) (block : Z)
    (start end_ : string) (s e : Z) :
  valid_date today = true ->
  time_of_day start = Ok s ->
  time_of_day end_ = Ok e ->
  s <= e ->
  (block = 0 ->
   forall fuel, generate_slots fuel today block start end_ = None)
  /\ (block < 0 ->
      exists n : nat, forall fuel, (n <= fuel)%nat ->
        generate_slots fuel today block start end_
        = Some (Raise OverflowError)).
Proof.
  intros Hd Hs He Hle.
  pose proof (time_of_day_range _ _ Hs) as Hsr.
  pose proof (time_of_day_range _ _ He) as Her.
  pose proof (combine_in_range today s Hd Hsr) as Hc.
  split.
  - intros -> fuel. rewrite generate_slots_times, Hs, He.
    apply slots_loop_zero; [exact Hc | unfold combine; lia].
  - intros Hb.
    exists (Z.to_nat (combine today s - datetime_min + 1)).
    intros fuel Hfuel. rewrite generate_slots_times, Hs, He.
    apply (slots_loop_negative (Z.to_nat (combine today s - datetime_min + 1)));
      try assumption; [unfold combine; lia | nia].
Qed.

Lemma generate_slots_bad_block_witness :
  (forall fuel,
     generate_slots fuel (mkdate 2026 11 3) 0 "09:00" "18:30" = None)
  /\ (exists n : nat, forall fuel, (n <= fuel)%nat ->
        generate_slots fuel (mkdate 2026 11 3) (-30) "09:00" "18:30"
        = Some (Raise OverflowError)).
Proof.
  split.
  - apply (proj1 (generate_slots_bad_block (mkdate 2026 11 3) 0
                    "09:00" "18:30" 540 1110
                    eq_refl eq_refl eq_refl ltac:(lia))).
    reflexivity.
  - apply (proj2 (generate_slots_bad_block (mkdate 2026 11 3) (-30)
                    "09:00" "18:30" 540 1110
                    eq_refl eq_refl eq_refl ltac:(lia))).
    lia.
Defined.





(** ** More of the overlap predicate *)

Lemma ascii_compare_refl (c : ascii) : Ascii.compare c c = Eq.
Proof. unfold Ascii.compare. apply N.compare_refl. Qed.

Lemma ascii_compare_lt_trans (a b c : ascii) :
  Ascii.compare a b = Lt -> Ascii.compare b c = Lt -> Ascii.compare a c = Lt.
Proof.
  unfold Ascii.compare. rewrite !N.compare_lt_iff. lia.
Qed.

Lemma compare_lt_trans (a : string) :
  forall b c, String.compare a b = Lt -> String.compare b c = Lt ->
              String.compare a c = Lt.
Proof.
  induction a as [|x a IH]; intros [|y b] [|z c]; simpl; try congruence.
  destruct (Ascii.compare x y) eqn:Hxy; try discriminate;
    destruct (Ascii.compare y z) eqn:Hyz; try discriminate.
  - apply Ascii.compare_eq_iff in Hxy, Hyz. subst.
    rewrite ascii_compare_refl. apply IH.
  - apply Ascii.compare_eq_iff in Hxy. subst. now rewrite Hyz.
  - apply Ascii.compare_eq_iff in Hyz. subst. now rewrite Hxy.
  - now rewrite (ascii_compare_lt_trans x y z).
Qed.

Lemma str_le_lt_trans (a b c : string) :
  str_le a b = true -> str_lt b c = true -> str_lt a c = true.
Proof.
  unfold str_le, str_lt, String.leb, String.ltb.
  destruct (String.compare a b) eqn:Hab; try discriminate; intros _;
    destruct (String.compare b c) eqn:Hbc; try discriminate; intros _.
  - apply String.compare_eq_iff in Hab. subst. now rewrite Hbc.
  - now rewrite (compare_lt_trans a b c).
Qed.

Lemma overlaps_sym (a1 a2 b1 b2 : string) :
  overlaps a1 a2 b1 b2 = overlaps b1 b2 a1 a2.
Proof. unfold overlaps. now rewrite orb_comm. Qed.

(** X15: the overlap test does not depend on the order of the two
    intervals; an interval overlaps itself exactly when it is not empty
    (start < end), so an interval whose end is not after its start does
    not even conflict with itself; and an interval overlaps every
    non-empty interval that starts inside it. *)
Theorem overlaps_laws (a1 a2 b1 b2 : string) :
  overlaps a1 a2 b1 b2 = overlaps b1 b2 a1 a2
  /\ overlaps a1 a2 a1 a2 = str_lt a1 a2
  /\ (str_le a1 b1 = true -> str_lt b1 a2 = true -> str_lt b1 b2 = true ->
      overlaps a1 a2 b1 b2 = true).
Proof.
  split; [apply overlaps_sym|]. split.
  - unfold overlaps. rewrite orb_diag, str_le_lt_negb. apply negb_involutive.
  - intros H1 H2 H3. unfold overlaps. rewrite !str_le_lt_negb.
    rewrite H2, (str_le_lt_trans a1 b1 b2 H1 H3). reflexivity.
Qed.

Lemma overlaps_laws_witness :
  overlaps "09:00:00" "10:00:00" "09:30:00" "11:00:00"
  = overlaps "09:30:00" "11:00:00" "09:00:00" "10:00:00"
  /\ overlaps "09:00:00" "10:00:00" "09:00:00" "10:00:00"
     = str_lt "09:00:00" "10:00:00"
  /\ (str_le "09:00:00" "09:30:00" = true ->
      str_lt "09:30:00" "10:00:00" = true ->
      str_lt "09:30:00" "11:00:00" = true ->
      overlaps "09:00:00" "10:00:00" "09:30:00" "11:00:00" = true).
Proof.
  apply (overlaps_laws "09:00:00" "10:00:00" "09:30:00" "11:00:00").
Defined.

(** ** The agenda stays free of double bookings *)

(** What a run of "Crear cita" that returns has done. *)
Lemma page_agenda_inv (st st' : gmap string DataFrame) (now : Z)
    (created_at : string) (f : booking) (u : ui) :
  page_agenda st now created_at f = Ok (st', u) ->
  (st' = st /\ exists msg, u = UiError msg)
  \/ exists (pid prid price : cell) (sr : gmap string cell) (hm : Z * Z)
            (t : Z) (end_dt : datetime) (same_day : list (gmap string cell)),
       (String.eqb placeholder (psel f) || String.eqb placeholder (prosel f)
        || String.eqb placeholder (ssel f) = false
        /\ first_id (fetch_table st "patients") "full_name" (psel f) = Ok pid
        /\ first_id (fetch_table st "professionals") "full_name" (prosel f)
           = Ok prid
        /\ first_row (fetch_table st "services") "name" (ssel f) = Ok sr
        /\ py_float (row_get (fetch_table st "services") sr "price" (CNum 0))
           = Ok price
        /\ has_column (fetch_table st "services") "id" = true)
       /\ parse_hm (slot f) = Ok hm
       /\ py_time hm.1 hm.2 = Ok t
       /\ datetime_add (combine (bday f) t) (dur f) = Ok end_dt
       /\ same_day_rows (fetch_table st "appointments") prid (bday f)
          = Ok same_day
       /\ conflict_scan (fetch_table st "appointments") (slot f +:+ ":00")
            (strftime_HMS end_dt) same_day = false
       /\ st' = insert_row st now "appointments"
                  (appointment_record pid prid (cell_at sr "id") price (bday f)
                     (slot f +:+ ":00") (strftime_HMS end_dt) (notes f)
                     created_at)
       /\ u = UiSuccess "Cita creada.".
Proof.
  unfold page_agenda. intros Hrun.
  destruct (_ || _) eqn:Hsel; [injection Hrun as <- <-; left; eauto|].
  do 8 bind_inv Hrun.
  destruct (conflict_scan _ _ _ a6) eqn:Hscan;
    [injection Hrun as <- <-; left; eauto|].
  destruct (has_column (fetch_table st "services") "id") eqn:Hid;
    [|discriminate].
  injection Hrun as <- <-. right.
  exists a, a0, a2, a1, a3, a4, a5, a6.
  repeat split; assumption || reflexivity.
Qed.

(** The run of "Crear cita" once the selections resolve: the scan
    decides. *)
Lemma page_agenda_run (st : gmap string DataFrame) (now : Z)
    (created_at : string) (f : booking) (pid prid price : cell)
    (sr : gmap string cell) (hm : Z * Z) (t : Z) (end_dt : datetime)
    (same_day : list (gmap string cell)) :
  String.eqb placeholder (psel f) || String.eqb placeholder (prosel f)
  || String.eqb placeholder (ssel f) = false ->
  first_id (fetch_table st "patients") "full_name" (psel f) = Ok pid ->
  first_id (fetch_table st "professionals") "full_name" (prosel f) = Ok prid ->
  first_row (fetch_table st "services") "name" (ssel f) = Ok sr ->
  py_float (row_get (fetch_table st "services") sr "price" (CNum 0))
  = Ok price ->
  has_column (fetch_table st "services") "id" = true ->
  parse_hm (slot f) = Ok hm ->
  py_time hm.1 hm.2 = Ok t ->
  datetime_add (combine (bday f) t) (dur f) = Ok end_dt ->
  same_day_rows (fetch_table st "appointments") prid (bday f) = Ok same_day ->
  page_agenda st now created_at f
  = if conflict_scan (fetch_table st "appointments") (slot f +:+ ":00")
         (strftime_HMS end_dt) same_day
    then Ok (st, UiError conflict_msg)
    else Ok (insert_row st now "appointments"
               (appointment_record pid prid (cell_at sr "id") price (bday f)
                  (slot f +:+ ":00") (strftime_HMS end_dt) (notes f)
                  created_at),
             UiSuccess "Cita creada.").
Proof.
  intros Hsel Hp Hpr Hs Hprice Hid Hhm Ht Hend Hsame.
  unfold page_agenda. rewrite Hsel, Hp, Hpr, Hs. cbn [bind].
  rewrite Hprice, Hhm. cbn [bind]. rewrite Ht. cbn [bind].
  rewrite Hend. cbn [bind]. rewrite Hsame. cbn [bind]. rewrite Hid.
  reflexivity.
Qed.

Lemma start_of_columns (apps : DataFrame) (r : gmap string cell) :
  agenda_columns apps ->
  start_of apps r = py_str (cell_at r "start_time")
  /\ end_of apps r = py_str (cell_at r "end_time").
Proof.
  intros (_ & _ & Hs & He). unfold start_of, end_of, row_get.
  now rewrite Hs, He.
Qed.


Lemma agenda_columns_grow (apps apps' : DataFrame) :
  (forall c, has_column apps c = true -> has_column apps' c = true) ->
  agenda_columns apps -> agenda_columns apps'.
Proof. intros H (A & B & C & D). repeat split; now apply H. Qed.







(** ** What a button press writes *)

(** A run of a handler that returns either shows something other than a
    success message and hands back the directory it was given, or shows
    a success message after one call of [upsert_row] or [insert_row] on
    the table of its page. *)
Lemma handle_inv (st st' : gmap string DataFrame) (a : action) (u : ui) :
  handle st a = Ok (st', u) ->
  (st' = st /\ forall m, u <> UiSuccess m)
  \/ ((exists m, u = UiSuccess m)
      /\ ((exists now data, upsert_row st now (table_of a) data "id" = Ok st')
          \/ (exists now data, table_of a = "appointments"
                               /\ st' = insert_row st now "appointments" data))).
Proof.
  intros Hrun.
  destruct a as [now c name rut bdate phone email | now c pname spec
                | now c sname duration price | now c f | now cid new_status];
    simpl in Hrun.
  - unfold page_pacientes in Hrun.
    destruct (String.eqb (strip name) "");
      [injection Hrun as <- <-; left; split; [reflexivity | discriminate]|].
    bind_inv Hrun. injection Hrun as <- <-. right. eauto 8.
  - unfold page_config_professional in Hrun.
    destruct (negb _);
      [|injection Hrun as <- <-; left; split; [reflexivity | discriminate]].
    bind_inv Hrun. injection Hrun as <- <-. right. eauto 8.
  - unfold page_config_service in Hrun.
    destruct (negb _);
      [|injection Hrun as <- <-; left; split; [reflexivity | discriminate]].
    bind_inv Hrun. injection Hrun as <- <-. right. eauto 8.
  - apply page_agenda_inv in Hrun
      as [[-> [msg ->]] | (pid & prid & price & sr & hm & t & end_dt & same_day
                           & _ & _ & _ & _ & _ & _ & -> & ->)].
    + left. split; [reflexivity | discriminate].
    + right. split; [eauto|]. right. eauto.
  - unfold page_citas in Hrun.
    destruct (df_empty _);
      [injection Hrun as <- <-; left; split; [reflexivity | discriminate]|].
    bind_inv Hrun. injection Hrun as <- <-. right. eauto 8.
Qed.

(** X17: a button press writes at most the table of its page
    (patients, professionals, services, appointments), whatever it is
    given; and a run that ends with anything but a success message (a
    validation error, a scheduling conflict, the notice of an empty
    list) hands back the directory untouched. *)
Theorem handlers_write_own_table (st : gmap string DataFrame) (a : action) :
  (forall t, t <> table_of a ->
     fetch_table (run_action st a) t = fetch_table st t)
  /\ (forall st' u, handle st a = Ok (st', u) ->
        (forall m, u <> UiSuccess m) -> st' = st).
Proof.
  split.
  - intros t Ht. unfold run_action.
    destruct (handle st a) as [[st' u]|e] eqn:Hrun; [|reflexivity].
    destruct (handle_inv st st' a u Hrun)
      as [[-> _] | [_ [(now & data & Hup) | (now & data & Ha & ->)]]].
    + reflexivity.
    + now apply (upsert_row_other st st' now (table_of a) data "id").
    + apply insert_row_other. congruence.
  - intros st' u Hrun Hu.
    destruct (handle_inv st st' a u Hrun) as [[-> _] | [[m ->] _]];
      [reflexivity | now destruct (Hu m)].
Qed.

(** ** Nothing is deleted *)

Lemma upsert_row_key_column (st st' : gmap string DataFrame) (now : Z)
    (table : string) (data : gmap string cell) (pk : string) :
  upsert_row st now table data pk = Ok st' ->
  has_column (fetch_table st' table) pk = true.
Proof.
  intros Hrun.
  destruct (upsert_row_cases st st' now table data pk Hrun)
    as (data' & df' & Hd & -> & Hcase).
  assert (Hpk : pk ∈ keys data').
  { apply elem_of_keys. subst data'.
    destruct (key_blank data pk) eqn:Hb.
    - rewrite lookup_insert_eq. eauto.
    - now apply key_blank_false_Some. }
  rewrite fetch_to_csv_eq. apply has_column_true.
  destruct Hcase as [[_ ->] | [(_ & _ & _ & ->) | (_ & _ & _ & ->)]]; simpl.
  - exact Hpk.
  - apply elem_of_add_columns. now right.
  - apply elem_of_add_columns. now right.
Qed.

Lemma has_column_header (df : DataFrame) (k : string) :
  has_column df k = true -> columns df <> [].
Proof.
  intros H Hnil. apply has_column_true in H. rewrite Hnil in H. inversion H.
Qed.

Lemma run_action_has_header (st : gmap string DataFrame) (a : action) :
  has_header st -> has_header (run_action st a).
Proof.
  intros Hwf t. unfold run_action.
  destruct (handle st a) as [[st' u]|e] eqn:Hrun; [|apply Hwf].
  destruct (handle_inv st st' a u Hrun)
    as [[-> _] | [_ [(now & data & Hup) | (now & data & Ha & ->)]]].
  - apply Hwf.
  - destruct (decide (t = table_of a)) as [-> | Hne].
    + intros _. now apply (has_column_header _ "id"),
        (upsert_row_key_column st st' now (table_of a) data).
    + rewrite (upsert_row_other st st' now (table_of a) data "id" t Hup Hne).
      apply Hwf.
  - destruct (decide (t = "appointments")) as [-> | Hne].
    + intros _. apply (has_column_header _ "id").
      apply (proj1 (insert_row_columns st now "appointments" data)).
    + rewrite insert_row_other by exact Hne. apply Hwf.
Qed.

Lemma run_action_keeps_rows (st : gmap string DataFrame) (a : action)
    (t : string) (i : nat) (r : gmap string cell) :
  has_header st ->
  rows (fetch_table st t) !! i = Some r ->
  exists r',
    rows (fetch_table (run_action st a) t) !! i = Some r'
    /\ py_str (cell_at r' "id") = py_str (cell_at r "id").
Proof.
  intros Hwf Hi. unfold run_action.
  destruct (handle st a) as [[st' u]|e] eqn:Hrun; [|eauto].
  destruct (handle_inv st st' a u Hrun)
    as [[-> _] | [_ [(now & data & Hup) | (now & data & Ha & ->)]]].
  - eauto.
  - destruct (decide (t = table_of a)) as [-> | Hne].
    + assert (Hne : df_empty (fetch_table st (table_of a)) = false).
      { assert (Hr : rows (fetch_table st (table_of a)) <> [])
          by (intros Hnil; rewrite Hnil in Hi; discriminate).
        pose proof (Hwf _ Hr) as Hc. unfold df_empty.
        destruct (rows (fetch_table st (table_of a))); [congruence|].
        destruct (columns (fetch_table st (table_of a))); congruence. }
      destruct (upsert_row_keeps _ _ _ _ _ _ Hup Hne i r Hi)
        as (r' & Hr' & _ & Hid).
      eauto.
    + rewrite (upsert_row_other st st' now (table_of a) data "id" t Hup Hne).
      eauto.
  - destruct (decide (t = "appointments")) as [-> | Hne].
    + destruct (insert_row_rows st now "appointments" data) as (d' & -> & _).
      exists r. split; [now apply lookup_app_l_Some | reflexivity].
    + rewrite insert_row_other by exact Hne. eauto.
Qed.

(** X18: no page deletes or moves a row.  From a directory whose
    tables with rows have columns, after any sequence of button
    presses every row of every table is still at its index and carries
    the same id text, and the directory still has that shape; so no
    table ever gets shorter. *)
Theorem rows_never_deleted (st : gmap string DataFrame) (acts : list action) :
  has_header st ->
  has_header (run_actions st acts)
  /\ (forall t i r,
        rows (fetch_table st t) !! i = Some r ->
        exists r',
          rows (fetch_table (run_actions st acts) t) !! i = Some r'
          /\ py_str (cell_at r' "id") = py_str (cell_at r "id"))
  /\ (forall t,
        (length (rows (fetch_table st t))
         <= length (rows (fetch_table (run_actions st acts) t)))%nat).
Proof.
  revert st. induction acts as [|a acts IH]; intros st Hwf.
  - simpl. split; [exact Hwf|]. split; [eauto | intros; lia].
  - destruct (IH (run_action st a) (run_action_has_header st a Hwf))
      as (Hwf' & Hrows & Hlen).
    assert (Hkeep : forall t i r,
              rows (fetch_table st t) !! i = Some r ->
              exists r',
                rows (fetch_table (run_actions st (a :: acts)) t) !! i = Some r'
                /\ py_str (cell_at r' "id") = py_str (cell_at r "id")).
    { intros t i r Hi.
      destruct (run_action_keeps_rows st a t i r Hwf Hi) as (r1 & H1 & Hid1).
      destruct (Hrows t i r1 H1) as (r2 & H2 & Hid2).
      exists r2. split; [exact H2 | congruence]. }
    split; [exact Hwf'|]. split; [exact Hkeep|].
    intros t.
    destruct (rows (fetch_table st t)) as [|r0 l] eqn:Hl using rev_ind;
      [simpl; lia|].
    clear IHl.
    destruct (Hkeep t (length l) r0) as (r' & Hr' & _).
    { rewrite Hl. apply list_lookup_middle. reflexivity. }
    apply lookup_lt_Some in Hr'. rewrite length_app. cbn [length]. lia.
Qed.

Lemma rows_never_deleted_witness :
  has_header (run_actions clinic
                [SavePatient 2000 "2024-05-01T08:00:00" "Ana Rojas" "" None "" "";
                 UpdateStatus 2001 "7" "atendida"])
  /\ (forall t i r,
        rows (fetch_table clinic t) !! i = Some r ->
        exists r',
          rows (fetch_table
                  (run_actions clinic
                     [SavePatient 2000 "2024-05-01T08:00:00" "Ana Rojas" ""
                        None "" "";
                      UpdateStatus 2001 "7" "atendida"]) t) !! i = Some r'
          /\ py_str (cell_at r' "id") = py_str (cell_at r "id"))
  /\ (forall t,
        (length (rows (fetch_table clinic t))
         <= length (rows (fetch_table
                            (run_actions clinic
                               [SavePatient 2000 "2024-05-01T08:00:00"
                                  "Ana Rojas" "" None "" "";
                                UpdateStatus 2001 "7" "atendida"]) t)))%nat).
Proof.
  apply (rows_never_deleted clinic).
  intros t.
  destruct (clinic !! t) as [df|] eqn:Ht.
  - unfold fetch_table. rewrite Ht. intros _ Hnil. revert Ht.
    unfold clinic. rewrite !lookup_insert_Some, lookup_empty.
    intros Hcase.
    repeat (destruct Hcase as [[_ <-] | [_ Hcase]]; [revert Hnil; vm_compute; discriminate|]).
    discriminate.
  - unfold fetch_table. rewrite Ht. simpl. congruence.
Defined.

(** ** The forms that save *)






(** ** More of the reports *)

Lemma count_eq_nonneg (cs : list cell) (s : string) : 0 <= count_eq cs s.
Proof. unfold count_eq. lia. Qed.

Lemma count_eq_cons (c : cell) (cs : list cell) (s : string) :
  count_eq (c :: cs) s
  = (if cell_eq_str c s then 1 else 0) + count_eq cs s.
Proof.
  unfold count_eq. rewrite filter_cons.
  destruct (cell_eq_str c s); simpl.
  - destruct (decide (Is_true true)) as [_ | H]; [|now destruct H].
    cbn [length]. lia.
  - destruct (decide (Is_true false)) as [H | _]; [now destruct H|]. lia.
Qed.

(** Counts of different states never count a row twice. *)
Lemma count_eq_disjoint (cs : list cell) (s1 s2 s3 : string) :
  s1 <> s2 -> s1 <> s3 -> s2 <> s3 ->
  count_eq cs s1 + count_eq cs s2 + count_eq cs s3 <= Z.of_nat (length cs).
Proof.
  intros H12 H13 H23. induction cs as [|c cs IH]; [unfold count_eq; simpl; lia|].
  rewrite !count_eq_cons. cbn [length]. 
  assert (Hone : (if cell_eq_str c s1 then 1 else 0)
                 + (if cell_eq_str c s2 then 1 else 0)
                 + (if cell_eq_str c s3 then 1 else 0) <= 1).
  { destruct c as [t| | |]; simpl; try lia.
    destruct (String.eqb_spec t s1), (String.eqb_spec t s2),
      (String.eqb_spec t s3); try lia; congruence. }
  lia.
Qed.

(** X21: whenever the KPI cards are computed, the three state counts
    are not negative and together do not exceed the number of
    appointments on the "Citas" card, which is the number of rows of
    the scope: no appointment is counted under two states. *)
Theorem kpi_counts_bounded (scope : DataFrame) (k : kpis) :
  report_kpis scope = Ok k ->
  total_citas k = Z.of_nat (length (rows scope))
  /\ 0 <= atendidas k /\ 0 <= canceladas k /\ 0 <= ausentes k
  /\ atendidas k + canceladas k + ausentes k <= total_citas k.
Proof.
  unfold report_kpis. intros Hrun.
  destruct (has_column scope "status"); [|discriminate].
  destruct (has_column scope "price"); [|discriminate].
  do 2 bind_inv Hrun.
  destruct a0 as [s|n| |]; try discriminate.
  injection Hrun as <-. cbn [total_citas atendidas canceladas ausentes].
  split; [reflexivity|].
  repeat split; try apply count_eq_nonneg.
  pose proof (count_eq_disjoint (column (rows scope) "status")
                "atendida" "cancelada" "ausente") as H.
  unfold column in H at 4. rewrite length_map in H.
  apply H; discriminate.
Qed.

Lemma kpi_counts_bounded_witness :
  total_citas (mkKpis 2 1 0 0 55000)
  = Z.of_nat (length (rows (mkDF (default_columns "appointments")
                                 (rows (fetch_table clinic_two "appointments")))))
  /\ 0 <= atendidas (mkKpis 2 1 0 0 55000)
  /\ 0 <= canceladas (mkKpis 2 1 0 0 55000)
  /\ 0 <= ausentes (mkKpis 2 1 0 0 55000)
  /\ atendidas (mkKpis 2 1 0 0 55000) + canceladas (mkKpis 2 1 0 0 55000)
     + ausentes (mkKpis 2 1 0 0 55000)
     <= total_citas (mkKpis 2 1 0 0 55000).
Proof.
  apply (kpi_counts_bounded
           (mkDF (default_columns "appointments")
                 (rows (fetch_table clinic_two "appointments")))).
  vm_refl.
Defined.

(** A list filtered by a test that no two of its positions pass has at
    most one element. *)
Lemma filter_at_most_one {A} (P : A -> Prop) `{forall x, Decision (P x)}
    (l : list A) :
  (forall i j x y, i <> j -> l !! i = Some x -> l !! j = Some y ->
     P x -> P y -> False) ->
  (length (filter P l) <= 1)%nat.
Proof.
  induction l as [|a l IH]; intros Hl; [simpl; lia|].
  rewrite filter_cons. destruct (decide (P a)) as [Ha | Ha].
  - assert (Hnone : filter P l = []).
    { apply length_zero_iff_nil.
      destruct (filter P l) as [|b l'] eqn:Hf; [reflexivity|].
      assert (Hb : b ∈ filter P l) by (rewrite Hf; left).
      apply list_elem_of_filter in Hb as [Hb Hin].
      apply list_elem_of_lookup in Hin as [j Hj].
      destruct (Hl 0%nat (S j) a b); auto. }
    rewrite Hnone. simpl. lia.
  - apply IH. intros i j x y Hij Hi Hj.
    apply (Hl (S i) (S j)); auto.
Qed.

Lemma key_match_shared (a p q : cell) :
  key_match a p = true -> key_match a q = true -> key_match p q = true.
Proof.
  unfold key_match. intros H1 H2.
  apply orb_true_iff in H1 as [H1 | H1]; apply orb_true_iff in H2 as [H2 | H2].
  - apply andb_true_iff in H1 as [_ H1]. apply andb_true_iff in H2 as [_ H2].
    now rewrite H1, H2.
  - apply bool_decide_eq_true in H2 as <-.
    apply andb_true_iff in H1 as [Ha Hp]. now rewrite Ha, Hp.
  - apply bool_decide_eq_true in H1 as <-.
    apply andb_true_iff in H2 as [Ha Hq]. now rewrite Ha, Hq.
  - apply bool_decide_eq_true in H1 as <-.
    apply bool_decide_eq_true in H2 as <-.
    apply orb_true_iff. right. now apply bool_decide_eq_true.
Qed.

Lemma merge_professional_length (scope pros : list (gmap string cell)) :
  (forall i j p q, i <> j -> pros !! i = Some p -> pros !! j = Some q ->
     key_match (cell_at p "id") (cell_at q "id") = false) ->
  length (merge_professional scope pros) = length scope
  /\ (forall r', r' ∈ merge_professional scope pros ->
        exists r, r ∈ scope
                  /\ forall k, k <> "Profesional" -> r' !! k = r !! k).
Proof.
  intros Huniq. unfold merge_professional.
  induction scope as [|r scope [IHlen IHin]]; [split; [reflexivity|]|].
  { intros r' Hr'. inversion Hr'. }
  cbn [flat_map]. rewrite length_app. cbn [length].
  set (ms := filter (fun p => Is_true (key_match (cell_at r "professional_id")
                                                 (cell_at p "id"))) pros).
  assert (Hms : (length ms <= 1)%nat).
  { apply filter_at_most_one. intros i j p q Hij Hi Hj Hp Hq.
    apply Is_true_true in Hp, Hq.
    pose proof (key_match_shared _ _ _ Hp Hq) as Hpq.
    rewrite (Huniq i j p q Hij Hi Hj) in Hpq. discriminate. }
  split.
  - rewrite IHlen. destruct ms as [|p [|q ms]]; simpl in *; lia.
  - intros r' Hr'. apply elem_of_app in Hr' as [Hr' | Hr'].
    + exists r. split; [left|].
      destruct ms as [|p ms].
      * apply list_elem_of_singleton in Hr' as ->. reflexivity.
      * apply list_elem_of_fmap in Hr' as (p' & -> & _).
        intros k Hk. now rewrite lookup_insert_ne by congruence.
    + destruct (IHin r' Hr') as (r0 & Hr0 & Hk). exists r0. split; [now right|].
      exact Hk.
Qed.

(** X22: with professionals of distinct ids, the professional filter
    of the reports only narrows.  Every row of the scope the cards are
    computed from is an appointment of the date range (with the name
    of its professional added), and the scope has at most as many rows
    as the date range has appointments: no appointment is counted
    twice. *)
Theorem report_filter_narrows (regex_search : string -> string -> bool)
    (df pros : DataFrame) (d1 d2 : date) (pro : string)
    (in_range : list (gmap string cell)) (scope : DataFrame) :
  unique_professionals pros ->
  date_range (rows df) (isoformat d1) (isoformat d2) = Ok in_range ->
  report_scope regex_search df pros d1 d2 pro = Ok scope ->
  (length (rows scope) <= length in_range)%nat
  /\ (forall r', r' ∈ rows scope ->
        exists r, r ∈ in_range
                  /\ forall k, k <> "Profesional" -> r' !! k = r !! k).
Proof.
  intros Huniq Hrange. unfold report_scope.
  destruct (has_column df "date"); [|discriminate].
  rewrite Hrange. cbn [bind].
  destruct (negb _).
  - destruct (has_column df "professional_id"); [|discriminate].
    destruct (has_column df "Profesional"); [discriminate|].
    intros Hs. injection Hs as <-. cbn [rows].
    destruct (merge_professional_length in_range (rows pros) Huniq)
      as [Hlen Hin].
    split.
    + rewrite <- Hlen. apply length_filter.
    + intros r' Hr'. apply list_elem_of_filter in Hr' as [_ Hr'].
      now apply Hin.
  - intros Hs. injection Hs as <-. cbn [rows]. split; [lia|].
    intros r' Hr'. exists r'. auto.
Qed.

Lemma report_filter_narrows_witness :
  (length (rows (mkDF (default_columns "appointments" ++ ["Profesional"])
                      [<["Profesional" := CStr "Eva"]> first_appointment]))
   <= length [first_appointment; second_appointment])%nat
  /\ (forall r',
        r' ∈ rows (mkDF (default_columns "appointments" ++ ["Profesional"])
                        [<["Profesional" := CStr "Eva"]> first_appointment]) ->
        exists r, r ∈ [first_appointment; second_appointment]
                  /\ forall k, k <> "Profesional" -> r' !! k = r !! k).
Proof.
  apply (report_filter_narrows literal_search
           (fetch_table clinic_two "appointments")
           (fetch_table clinic_two "professionals")
           may_first may_last "eva").
  - intros i j p q Hij Hi Hj.
    assert (Hrows : rows (fetch_table clinic_two "professionals")
                    = [<["id" := CNum 5]> (<["full_name" := CStr "Eva"]> ∅);
                       <["id" := CNum 6]> (<["full_name" := CStr "Leo"]> ∅)])
      by vm_refl.
    rewrite Hrows in Hi, Hj.
    destruct i as [|[|i]]; destruct j as [|[|j]]; try discriminate;
      try congruence; injection Hi as <-; injection Hj as <-; vm_refl.
  - vm_refl.
  - vm_refl.
Defined.

(** X23: a block size of 0 in the settings is not caught by the floor
    of one slot per day: with a workday start and end of the form H:M,
    the division by the block size raises [ZeroDivisionError] before
    the floor is applied, for every scope, with or without the columns
    the occupancy reads. *)
Theorem occupancy_zero_block (secrets : gmap string cell) (scope : DataFrame)
    (start_day end_day : string) (s e : Z * Z) :
  py_int (default (CNum 30) (secrets !! "block_minutes")) = Ok 0 ->
  setting_str secrets "workday_start" "09:00" = Ok start_day ->
  parse_hm start_day = Ok s ->
  setting_str secrets "workday_end" "18:30" = Ok end_day ->
  parse_hm end_day = Ok e ->
  report_occupancy secrets scope = Raise ZeroDivisionError.
Proof.
  intros Hblock Hstart Hs Hend He. unfold report_occupancy.
  rewrite Hblock. cbn [bind]. rewrite Hstart. cbn [bind].
  rewrite Hs. cbn [bind]. rewrite Hend. cbn [bind]. rewrite He. reflexivity.
Qed.

Lemma occupancy_zero_block_witness :
  report_occupancy (<["block_minutes" := CStr "0"]> ∅) (mkDF [] [])
  = Raise ZeroDivisionError.
Proof.
  apply (occupancy_zero_block (<["block_minutes" := CStr "0"]> ∅) _
           "09:00" "18:30" (9, 0) (18, 30)); vm_refl.
Defined.

(** ** Bookings that end after midnight *)

Lemma strftime_HMS_compare (a b : Z) :
  0 <= a < 1440 -> 0 <= b < 1440 ->
  String.compare (strftime_HM a +:+ ":00") (strftime_HM b +:+ ":00")
  = (a ?= b).
Proof.
  intros Ha Hb.
  assert (Hshape : forall t, strftime_HM t +:+ ":00"
            = pad2 (t mod 1440 / 60)
              +:+ String ":" (pad2 (t mod 1440 mod 60) +:+ ":00"))
    by reflexivity.
  rewrite !Hshape.
  rewrite (Z.mod_small a 1440), (Z.mod_small b 1440) by lia.
  rewrite pad2_compare by (Z.to_euclidean_division_equations; lia).
  rewrite compare_cons.
  change (Ascii.compare ":" ":") with Eq. cbv iota.
  rewrite pad2_compare by (Z.to_euclidean_division_equations; lia).
  change (String.compare ":00" ":00") with Eq.
  destruct (Z.compare_spec (a / 60) (b / 60)) as [H1 | H1 | H1];
    destruct (Z.compare_spec (a mod 60) (b mod 60)) as [H2 | H2 | H2];
    symmetry;
    first [ apply Z.compare_eq_iff | apply Z.compare_lt_iff
          | apply Z.compare_gt_iff ];
    Z.to_euclidean_division_equations; lia.
Qed.

Lemma strftime_HM_mod (x : Z) : strftime_HM x = strftime_HM (x mod 1440).
Proof. unfold strftime_HM. cbv zeta. now rewrite Z.mod_mod by lia. Qed.

Lemma conflict_scan_frame (apps apps' : DataFrame) (start_t end_t : string)
    (rs : list (gmap string cell)) :
  agenda_columns apps -> agenda_columns apps' ->
  conflict_scan apps' start_t end_t rs = conflict_scan apps start_t end_t rs.
Proof.
  intros (_ & _ & Hs & He) (_ & _ & Hs' & He').
  induction rs as [|r rs IH]; [reflexivity|].
  cbn [conflict_scan]. unfold row_get. now rewrite Hs, He, Hs', He', IH.
Qed.

(** X24: a booking that runs past midnight is stored with an end time
    that comes before its start time, and then never stands in the way
    of itself.  When "Crear cita" has succeeded for a slot of the form
    HH:MM and a duration that ends the appointment on the next day,
    before the same time of day, the row written has end < start as
    text, and pressing the button again with the same form succeeds
    again: the same professional holds two appointments for the very
    same interval. *)
Theorem booking_past_midnight_repeats (st st1 : gmap string DataFrame)
    (now : Z) (created_at : string) (f : booking) (m : string) (t : Z) :
  page_agenda st now created_at f = Ok (st1, UiSuccess m) ->
  agenda_columns (fetch_table st "appointments") ->
  slot f = strftime_HM t -> 0 <= t < 1440 ->
  1440 - t <= dur f < 1440 ->
  exists row,
    rows (fetch_table st1 "appointments")
    = (rows (fetch_table st "appointments") ++ [row])%list
    /\ cell_at row "start_time" = CStr (strftime_HM t +:+ ":00")
    /\ cell_at row "end_time"
       = CStr (strftime_HM (t + dur f - 1440) +:+ ":00")
    /\ str_lt (strftime_HM (t + dur f - 1440) +:+ ":00")
              (strftime_HM t +:+ ":00") = true
    /\ forall now' created_at',
         exists st2 row',
           page_agenda st1 now' created_at' f
           = Ok (st2, UiSuccess "Cita creada.")
           /\ rows (fetch_table st2 "appointments")
              = (rows (fetch_table st "appointments") ++ [row; row'])%list
           /\ cell_at row' "professional_id" = cell_at row "professional_id"
           /\ cell_at row' "date" = cell_at row "date"
           /\ cell_at row' "start_time" = cell_at row "start_time"
           /\ cell_at row' "end_time" = cell_at row "end_time".
Proof.
  intros Hrun Hcols Hslot Ht Hdur.
  apply page_agenda_inv in Hrun
    as [[_ [msg Hmsg]] | (pid & prid & price & sr & hm & t0 & end_dt & same_day
          & (Hsel & Hp & Hpr & Hs & Hprice & Hid) & Hhm & Ht0 & Hend
          & Hsame & Hscan & -> & _)]; [discriminate|].
  destruct (parse_strftime_HM t Ht) as [Hparse Htime].
  rewrite Hslot, Hparse in Hhm. injection Hhm as <-. cbn [fst snd] in Ht0.
  rewrite Htime in Ht0. injection Ht0 as <-.
  assert (Hend_t : strftime_HMS end_dt
                   = strftime_HM (t + dur f - 1440) +:+ ":00").
  { unfold datetime_add in Hend. destruct (_ && _); [|discriminate].
    injection Hend as <-. unfold strftime_HMS. f_equal.
    rewrite strftime_HM_mod. f_equal. unfold combine.
    replace (toordinal (bday f) * 1440 + t + dur f)
      with (t + dur f - 1440 + (toordinal (bday f) + 1) * 1440) by lia.
    rewrite Z.mod_add by lia. apply Z.mod_small. lia. }
  set (start_t := strftime_HM t +:+ ":00") in *.
  set (end_t := strftime_HM (t + dur f - 1440) +:+ ":00") in *.
  assert (Hcmp : String.compare end_t start_t = Lt).
  { unfold end_t, start_t. rewrite strftime_HMS_compare by lia.
    apply Z.compare_lt_iff. lia. }
  assert (Hlt : str_lt end_t start_t = true)
    by (unfold str_lt, String.ltb; now rewrite Hcmp).
  assert (Hle : str_le end_t start_t = true)
    by (unfold str_le, String.leb; now rewrite Hcmp).
  rewrite Hslot, Hend_t in *. fold start_t in Hscan |- *.
  set (apps := fetch_table st "appointments") in *.
  set (record := fun c => appointment_record pid prid (cell_at sr "id") price
                            (bday f) start_t end_t (notes f) c).
  fold (record created_at).
  set (st1 := insert_row st now "appointments" (record created_at)).
  destruct (insert_row_rows st now "appointments" (record created_at))
    as (row & Hrows & Hrow).
  destruct (insert_row_columns st now "appointments" (record created_at))
    as [_ Hgrow].
  fold apps st1 in Hrows, Hgrow.
  set (apps1 := fetch_table st1 "appointments") in *.
  assert (Hcols1 : agenda_columns apps1)
    by now apply (agenda_columns_grow apps).
  assert (Hcell : forall c (r : gmap string cell) k v,
            (forall k, k <> "id" -> r !! k = record c !! k) ->
            k <> "id" -> record c !! k = Some v -> cell_at r k = v).
  { intros c r k v Hr Hk Hv. unfold cell_at. now rewrite Hr, Hv. }
  assert (Rpro : cell_at row "professional_id" = prid)
    by (apply (Hcell created_at); [exact Hrow | discriminate | reflexivity]).
  assert (Rdate : cell_at row "date" = CStr (isoformat (bday f)))
    by (apply (Hcell created_at); [exact Hrow | discriminate | reflexivity]).
  assert (Rstart : cell_at row "start_time" = CStr start_t)
    by (apply (Hcell created_at); [exact Hrow | discriminate | reflexivity]).
  assert (Rend : cell_at row "end_time" = CStr end_t)
    by (apply (Hcell created_at); [exact Hrow | discriminate | reflexivity]).
  exists row. split; [exact Hrows|]. split; [exact Rstart|].
  split; [exact Rend|]. split; [exact Hlt|].
  intros now' created_at'.
  assert (Hother : forall tbl, tbl <> "appointments" ->
            fetch_table st1 tbl = fetch_table st tbl)
    by (intros tbl Htbl; now apply insert_row_other).
  assert (Hsame1 : exists rs, same_day_rows apps1 prid (bday f) = Ok rs).
  { unfold same_day_rows. destruct Hcols1 as (-> & _). eauto. }
  destruct Hsame1 as (rs & Hrs).
  assert (Hscan1 : conflict_scan apps1 start_t end_t rs = false).
  { destruct (conflict_scan apps1 start_t end_t rs) eqn:Hc; [|reflexivity].
    exfalso. apply conflict_scan_true in Hc as (r & Hr & Hsr & Her & Ho).
    apply (elem_of_same_day_rows apps1 prid (bday f) rs r Hrs) in Hr
      as (Hin & Hpro & _ & Hdate).
    destruct (start_of_columns apps1 r Hcols1) as [A1 B1].
    rewrite Hrows in Hin. apply elem_of_app in Hin as [Hin | Hin].
    - destruct (start_of_columns apps r Hcols) as [A0 B0].
      assert (Hold : conflict_scan apps start_t end_t same_day = true).
      { apply conflict_scan_true. exists r.
        rewrite A0, B0, <- A1, <- B1. repeat split; try assumption.
        apply (elem_of_same_day_rows apps prid (bday f) same_day r Hsame).
        destruct Hcols as (_ & Hd & _). auto. }
      congruence.
    - apply list_elem_of_singleton in Hin as ->.
      rewrite A1, B1, Rstart, Rend in Ho. cbn [py_str] in Ho.
      unfold overlaps in Ho. rewrite Hle in Ho. discriminate. }
  pose proof (page_agenda_run st1 now' created_at' f pid prid price sr
                (t / 60, t mod 60) t (combine (bday f) t + dur f) rs) as Hrun1.
  rewrite !Hother in Hrun1 by discriminate.
  fold apps1 in Hrun1.
  assert (Hend1 : strftime_HMS (combine (bday f) t + dur f) = end_t).
  { rewrite <- Hend_t. f_equal. unfold datetime_add in Hend.
    destruct (_ && _); [|discriminate]. now injection Hend. }
  rewrite Hslot, Hend1 in Hrun1. fold start_t in Hrun1.
  rewrite Hscan1 in Hrun1. fold (record created_at') in Hrun1.
  destruct (insert_row_rows st1 now' "appointments" (record created_at'))
    as (row' & Hrows' & Hrow').
  exists (insert_row st1 now' "appointments" (record created_at')), row'.
  split.
  { apply Hrun1; try assumption.
    unfold datetime_add in *. destruct (_ && _); [reflexivity | discriminate]. }
  split.
  { rewrite Hrows'. fold apps1. rewrite Hrows, <- app_assoc. reflexivity. }
  rewrite Rpro, Rdate, Rstart, Rend.
  repeat split;
    (apply (Hcell created_at'); [exact Hrow' | discriminate | reflexivity]).
Qed.

Lemma booking_past_midnight_repeats_witness :
  exists row,
    rows (fetch_table
            (run_action clinic
               (CreateAppointment 2000 "2024-05-01T08:00:00" late_evening))
            "appointments")
    = (rows (fetch_table clinic "appointments") ++ [row])%list
    /\ cell_at row "start_time" = CStr (strftime_HM 1410 +:+ ":00")
    /\ cell_at row "end_time"
       = CStr (strftime_HM (1410 + dur late_evening - 1440) +:+ ":00")
    /\ str_lt (strftime_HM (1410 + dur late_evening - 1440) +:+ ":00")
              (strftime_HM 1410 +:+ ":00") = true
    /\ forall now' created_at',
         exists st2 row',
           page_agenda
             (run_action clinic
                (CreateAppointment 2000 "2024-05-01T08:00:00" late_evening))
             now' created_at' late_evening
           = Ok (st2, UiSuccess "Cita creada.")
           /\ rows (fetch_table st2 "appointments")
              = (rows (fetch_table clinic "appointments") ++ [row; row'])%list
           /\ cell_at row' "professional_id" = cell_at row "professional_id"
           /\ cell_at row' "date" = cell_at row "date"
           /\ cell_at row' "start_time" = cell_at row "start_time"
           /\ cell_at row' "end_time" = cell_at row "end_time".
Proof.
  apply (booking_past_midnight_repeats clinic _ 2000 "2024-05-01T08:00:00"
           late_evening "Cita creada." 1410).
  - vm_refl.
  - repeat split; vm_refl.
  - vm_refl.
  - lia.
  - vm_compute. split; [discriminate | reflexivity].
Defined.
